(** * Feature calculator of the EV prediction app

    A shallow embedding of [src/frontend/src/hooks/useFeatureCalculator.js]:
    the [DataBuffer] class, [getElevation], [ema] and [calculateFeatures].

    JavaScript numbers are abstracted by the class [JSNum], which lists the
    operations the hook uses.  The class has two instances: IEEE-754 binary64
    (Rocq's primitive floats, the semantics of a JS number) and the real
    numbers R (exact arithmetic, the reading of the formulas in the spec).
    The hook is written once over [JSNum] and then used at both types. *)

From Stdlib Require Import ZArith List Bool Reals Lra Psatz.
From Stdlib Require Uint63 Floats Strings.String.
Import ListNotations.

(** ** JavaScript numbers *)

Class JSNum (N : Type) := {
  jadd : N -> N -> N;            (* a + b *)
  jsub : N -> N -> N;            (* a - b *)
  jmul : N -> N -> N;            (* a * b *)
  jdiv : N -> N -> N;            (* a / b *)
  jabs : N -> N;                 (* Math.abs *)
  jsqrt : N -> N;                (* Math.sqrt *)
  jpow : N -> nat -> N;          (* a ** k, for the integer literals k = 2, 3 *)
  jmax : N -> N -> N;            (* Math.max(a, b) *)
  jmin : N -> N -> N;            (* Math.min(a, b) *)
  jlt : N -> N -> bool;          (* a < b *)
  jeq : N -> N -> bool;          (* a === b *)
  jisNaN : N -> bool;            (* isNaN(a) *)
  jlit : Z -> positive -> N      (* the numeric literal n / d, e.g. 3.6 *)
}.

Declare Scope js_scope.
Delimit Scope js_scope with js.
Infix "+" := jadd : js_scope.
Infix "-" := jsub : js_scope.
Infix "*" := jmul : js_scope.
Infix "/" := jdiv : js_scope.
Infix "<?" := jlt (at level 70) : js_scope.
Infix "===" := jeq (at level 70) : js_scope.
Infix "**" := jpow (at level 30, right associativity) : js_scope.

(** Truthiness of a number: [0], [-0] and [NaN] are falsy. *)
Definition jtruthy {N} `{JSNum N} (x : N) : bool :=
  negb (jisNaN x) && negb (x === jlit 0 1)%js.

(** *** IEEE-754 binary64 *)

Module F64.
Import Floats.PrimFloat.
Open Scope float_scope.

Definition of_Z (z : Z) : float :=
  let f := PrimFloat.of_uint63 (Uint63.of_Z (Z.abs z)) in
  if (z <? 0)%Z then - f else f.

(** Math.max / Math.min: NaN if an argument is NaN, and +0 above -0. *)
Definition math_max (a b : float) : float :=
  if is_nan a then a else if is_nan b then b
  else if a <? b then b else if b <? a then a
  else if get_sign a then b else a.

Definition math_min (a b : float) : float :=
  if is_nan a then a else if is_nan b then b
  else if a <? b then a else if b <? a then b
  else if get_sign a then a else b.

(** [a ** k] by repeated multiplication. *)
Fixpoint math_pow (a : float) (k : nat) : float :=
  match k with O => one | S O => a | S k' => math_pow a k' * a end.

#[export] Instance js_float : JSNum float := {
  jadd := PrimFloat.add;
  jsub := PrimFloat.sub;
  jmul := PrimFloat.mul;
  jdiv := PrimFloat.div;
  jabs := PrimFloat.abs;
  jsqrt := PrimFloat.sqrt;
  jpow := math_pow;
  jmax := math_max;
  jmin := math_min;
  jlt := PrimFloat.ltb;
  jeq := PrimFloat.eqb;
  jisNaN := is_nan;
  jlit n d := of_Z n / of_Z (Zpos d)
}.
End F64.

(** *** Exact arithmetic *)

Module Real.
Open Scope R_scope.

Definition rltb (a b : R) : bool := if Rlt_dec a b then true else false.
Definition reqb (a b : R) : bool := if Req_dec_T a b then true else false.

#[export] Instance js_real : JSNum R := {
  jadd := Rplus;
  jsub := Rminus;
  jmul := Rmult;
  jdiv := Rdiv;
  jabs := Rabs;
  jsqrt := sqrt;
  jpow := pow;
  jmax := Rmax;
  jmin := Rmin;
  jlt := rltb;
  jeq := reqb;
  jisNaN _ := false;
  jlit n d := IZR n / IZR (Zpos d)
}.
End Real.

(** ** [DataBuffer] (lines 8-49) *)

(** [Array.prototype.slice(start)]: a negative start counts from the end,
    clamped to 0; a non-negative one is clamped to the length. *)
Definition slice_from {A : Type} (start : Z) (l : list A) : list A :=
  let len := Z.of_nat (length l) in
  let k := if (start <? 0)%Z then Z.max (len + start) 0 else Z.min start len in
  skipn (Z.to_nat k) l.

Record DataBuffer (A : Type) := mkDataBuffer {
  maxSize : nat;
  data : list A
}.
Arguments mkDataBuffer {A}.
Arguments maxSize {A}.
Arguments data {A}.

Record Stats (N : Type) := mkStats {
  mean : N;
  std : N;
  max : N;
  min : N
}.
Arguments mkStats {N}.
Arguments mean {N}.
Arguments std {N}.
Arguments max {N}.
Arguments min {N}.

Section Buffer.
Context {A : Type}.

(** [constructor(maxSize = 30)] *)
Definition newDataBuffer (size : nat) : DataBuffer A := mkDataBuffer size [].

(** [add(point)]: push, then shift once if the array grew past maxSize. *)
Definition add (b : DataBuffer A) (point : A) : DataBuffer A :=
  let data' := b.(data) ++ [point] in
  if Nat.ltb b.(maxSize) (length data')
  then mkDataBuffer b.(maxSize) (tl data')
  else mkDataBuffer b.(maxSize) data'.

(** [getLast()] *)
Definition getLast (b : DataBuffer A) : option A :=
  last (map Some b.(data)) None.

(** [clear()] *)
Definition clear (b : DataBuffer A) : DataBuffer A :=
  mkDataBuffer b.(maxSize) [].

Context {N : Type} `{JSNum N}.
Local Open Scope js_scope.

(** [values.reduce((a, b) => a + b, 0)] *)
Definition sum (values : list N) : N := fold_left jadd values (jlit 0 1).

(** [Math.max(...values)] and [Math.min(...values)] on the non-empty
    array they are called with (an empty one never reaches them). *)
Definition max_list (values : list N) : N :=
  match values with [] => jlit 0 1 | v :: vs => fold_left jmax vs v end.
Definition min_list (values : list N) : N :=
  match values with [] => jlit 0 1 | v :: vs => fold_left jmin vs v end.

(** [getStats(key, window)]; the keys are the fields of a stored point,
    so [d[key]] is never undefined and only the NaN filter can drop. *)
Definition getStats (b : DataBuffer A) (key : A -> N) (window : Z) : Stats N :=
  let values := filter (fun v => negb (jisNaN v))
                  (map key (slice_from (- window) b.(data))) in
  match values with
  | [] => mkStats (jlit 0 1) (jlit 0 1) (jlit 0 1) (jlit 0 1)
  | _ =>
    let n := jlit (Z.of_nat (length values)) 1 in
    let mean := sum values / n in
    let std := if Nat.ltb 1 (length values)
               then jsqrt (sum (map (fun v => (v - mean) ** 2) values) / n)
               else jlit 0 1 in
    mkStats mean std (max_list values) (min_list values)
  end.
End Buffer.

(** ** Hook state and data (lines 150-174, 255-268, 321-331, 357-407) *)

Set Implicit Arguments.

(** [sensorData]; the optional [gpsAltitude] is [null] when absent. *)
Record SensorData (N : Type) := mkSensorData {
  sd_speed : N;
  sd_latitude : N;
  sd_longitude : N;
  sd_gpsAltitude : option N;
  sd_timestamp : N;
  sd_soc : N;
  sd_ambientTemp : N
}.
Arguments mkSensorData {N}.

(** The object pushed into the buffer (lines 321-331). *)
Record Point (N : Type) := mkPoint {
  pt_timestamp : N;
  pt_speed : N;
  pt_acceleration : N;
  pt_slope : N;
  pt_elevation : N;
  pt_soc : N;
  pt_latitude : N;
  pt_longitude : N;
  pt_distanceM : N
}.
Arguments mkPoint {N}.

(** [tripStateRef.current] *)
Record TripState (N : Type) := mkTripState {
  cumulElevationGain : N;
  cumulElevationLoss : N;
  timeSinceStop : N;
  lastSoc : N;
  startTime : option N;
  totalDistance : N
}.
Arguments mkTripState {N}.

(** The [elevationSource] tags. *)
Inductive ElevationSource :=
| SrcNone | SrcCache | SrcPending | SrcApi | SrcGps | SrcLast | SrcDefault.

(** The refs of the hook; the elevation cache is a [Map], kept as an
    association list in insertion order. *)
Record State (K N : Type) := mkState {
  bufferRef : DataBuffer (Point N);
  elevationCacheRef : list (K * N);
  lastElevationRef : option N;
  smoothedSlopeRef : N;
  pendingElevationRef : bool;
  tripStateRef : TripState N
}.
Arguments mkState {K N}.

(** The object [computed] (lines 357-407): the 36 features. *)
Record FeatureVector (N : Type) := mkFeatureVector {
  speed_kmh : N; speed2 : N; speed3 : N; acceleration : N; slope : N;
  slope_abs : N; elevation_diff : N; VCFRONT_tempAmbient : N;
  temp_range : N; SOCave292 : N; soc_delta : N;
  speed_x_slope : N; speed2_x_slope : N; speed_x_slope_abs : N;
  accel_x_speed : N; accel_x_speed2 : N; total_effort : N;
  speed_roll_mean_10 : N; speed_roll_std_10 : N; speed_roll_max_10 : N;
  speed_roll_min_10 : N; accel_roll_mean_5 : N; accel_roll_std_5 : N;
  slope_roll_mean_20 : N;
  is_accelerating : N; is_braking : N; is_coasting : N; regen_potential : N;
  cumul_elevation_gain : N; cumul_elevation_loss : N; time_since_stop : N;
  speed_regime : N; slope_category : N; temp_category : N;
  accel_per_speed : N; slope_per_speed : N
}.
Arguments mkFeatureVector {N}.

Unset Implicit Arguments.


(** The result of [getElevation]: either settled at once, or suspended on
    [await fetchElevation(latitude, longitude)].  [fetchElevation] never
    throws: an HTTP error, an exception or the 3 s abort all give [null],
    so its outcome is an [option N].  The continuation receives that outcome
    and the refs as they are when the await resumes. *)
Inductive ElevLookup (K N : Type) :=
| Resolved (elevation : N) (source : ElevationSource)
| Fetching (latitude longitude : N)
           (resume : option N -> State K N -> (N * ElevationSource) * State K N).
Arguments Resolved {K N}.
Arguments Fetching {K N}.

(** ** Helpers of the hook (lines 100-135) *)

Section Helpers.
Context {N : Type} `{JSNum N}.
Local Open Scope js_scope.

(** [a <= b]: false when an operand is NaN, otherwise [!(b < a)]. *)
Definition jle (a b : N) : bool :=
  negb (jisNaN a) && negb (jisNaN b) && negb (b <? a).

Definition getSpeedRegime (speed : N) : N :=
  if speed <? jlit 30 1 then jlit 0 1
  else if speed <? jlit 60 1 then jlit 1 1
  else if speed <? jlit 90 1 then jlit 2 1
  else jlit 3 1.

Definition getSlopeCategory (slope : N) : N :=
  if slope <? jlit (-5) 1 then jlit 0 1
  else if slope <? jlit (-2) 1 then jlit 1 1
  else if jle slope (jlit 2 1) then jlit 2 1
  else if jle slope (jlit 5 1) then jlit 3 1
  else jlit 4 1.

Definition getTempCategory (temp : N) : N :=
  if temp <? jlit 0 1 then jlit 0 1
  else if temp <? jlit 10 1 then jlit 1 1
  else if temp <? jlit 20 1 then jlit 2 1
  else if temp <? jlit 30 1 then jlit 3 1
  else jlit 4 1.

(** [ema(newValue, prevEma, alpha)]; [prevEma] may be null. *)
Definition ema (newValue : N) (prevEma : option N) (alpha : N) : N :=
  match prevEma with
  | None => newValue
  | Some p => alpha * newValue + (jlit 1 1 - alpha) * p
  end.

(** Lines 306-313 of [calculateFeatures]: the raw slope, computed only
    after at least 1 m of movement above 2 km/h, then clamped. *)
Definition clampedRawSlope (distanceM speed elevationDiff : N) : N :=
  let rawSlope :=
    if (jlit 1 1 <? distanceM) && (jlit 2 1 <? speed)
    then (elevationDiff / distanceM) * jlit 100 1
    else jlit 0 1 in
  jmax (jlit (-20) 1) (jmin (jlit 20 1) rawSlope).
End Helpers.

(** ** The pipeline *)

Section Pipeline.
Context {N : Type} `{JSNum N}.
Local Open Scope js_scope.

(** The cache key [`${latitude.toFixed(4)},${longitude.toFixed(4)}`]:
    the claims hold for any bucketing, so the key function and the
    equality of keys are parameters. *)
Variable Key : Type.
Variable key_eqb : Key -> Key -> bool.
Variable cacheKey : N -> N -> Key.

(** [haversineDistance(lat1, lon1, lat2, lon2)] (lines 54-63). *)
Variable haversineDistance : N -> N -> N -> N -> N.

(** [Map.prototype.get], [set] (in place when present, appended
    otherwise) and [delete]. *)
Definition cache_get (k : Key) (c : list (Key * N)) : option N :=
  match find (fun e => key_eqb (fst e) k) c with
  | Some e => Some (snd e)
  | None => None
  end.

Definition cache_set (k : Key) (v : N) (c : list (Key * N)) : list (Key * N) :=
  if existsb (fun e => key_eqb (fst e) k) c
  then map (fun e => if key_eqb (fst e) k then (fst e, v) else e) c
  else c ++ [(k, v)].

Definition cache_delete (k : Key) (c : list (Key * N)) : list (Key * N) :=
  filter (fun e => negb (key_eqb (fst e) k)) c.

Definition with_elevation (st : State Key N) (cache : list (Key * N))
    (pending : bool) : State Key N :=
  mkState st.(bufferRef) cache st.(lastElevationRef) st.(smoothedSlopeRef)
    pending st.(tripStateRef).

(** Lines 227-249, run when the await of [fetchElevation] resumes. *)
Definition resumeElevation (cacheKeyStr : Key) (gpsAltitude : option N)
    (apiElevation : option N) (st : State Key N) : (N * ElevationSource) * State Key N :=
  let st := with_elevation st st.(elevationCacheRef) false in
  match apiElevation with
  | Some e =>
    let c := cache_set cacheKeyStr e st.(elevationCacheRef) in
    let c := if Nat.ltb 200 (length c)
             then match c with (k0, _) :: _ => cache_delete k0 c | [] => c end
             else c in
    ((e, SrcApi), with_elevation st c false)
  | None =>
    match gpsAltitude with
    | Some a => ((a, SrcGps), st)
    | None =>
      match st.(lastElevationRef) with
      | Some e => ((e, SrcLast), st)
      | None => ((jlit 0 1, SrcDefault), st)
      end
    end
  end.

(** [getElevation(latitude, longitude, gpsAltitude)] (lines 207-250). *)
Definition getElevation (st : State Key N) (latitude longitude : N)
    (gpsAltitude : option N) : ElevLookup Key N * State Key N :=
  let cacheKeyStr := cacheKey latitude longitude in
  match cache_get cacheKeyStr st.(elevationCacheRef) with
  | Some v => (Resolved v SrcCache, st)
  | None =>
    if st.(pendingElevationRef) then
      match st.(lastElevationRef) with
      | Some e => (Resolved e SrcPending, st)
      | None =>
        (* gpsAltitude || 0 *)
        let a := match gpsAltitude with
                 | Some a => if jtruthy a then a else jlit 0 1
                 | None => jlit 0 1
                 end in
        (Resolved a SrcGps, st)
      end
    else
      (Fetching latitude longitude (resumeElevation cacheKeyStr gpsAltitude),
       with_elevation st st.(elevationCacheRef) true)
  end.

(** [tripState.cumulElevationGain += ...] and the like (lines 339-343). *)
Definition setCumulElevation (t : TripState N) (gain loss : N) : TripState N :=
  mkTripState gain loss t.(timeSinceStop) t.(lastSoc) t.(startTime) t.(totalDistance).

(** [await getElevation(...)] (line 276), the await resuming at once
    with the outcome [apiElevation] of [fetchElevation]. *)
Definition resolveElevation (st : State Key N) (latitude longitude : N)
    (gpsAltitude apiElevation : option N) : N * ElevationSource * State Key N :=
  match getElevation st latitude longitude gpsAltitude with
  | (Resolved e src, st1) => (e, src, st1)
  | (Fetching _ _ resume, st1) =>
    let '((e, src), st2) := resume apiElevation st1 in (e, src, st2)
  end.

(** Line 279: [dt], clamped to [0.1, 10] s, or 1 on the first sample. *)
Definition timeDelta (lastPoint : option (Point N)) (timestamp : N) : N :=
  match lastPoint with
  | Some lp => jmax (jlit 1 10) (jmin (jlit 10 1) (timestamp - lp.(pt_timestamp)))
  | None => jlit 1 1
  end.

(** Lines 289-297: the distance of this tick.  The presence test of the
    previous position is the truthiness of its coordinates. *)
Definition tickDistance (lastPoint : option (Point N)) (latitude longitude speedMs dt : N) : N :=
  match lastPoint with
  | Some lp =>
    if jtruthy lp.(pt_latitude) && jtruthy lp.(pt_longitude)
    then jmin (haversineDistance lp.(pt_latitude) lp.(pt_longitude)
                                 latitude longitude) (jlit 50 1)
    else speedMs * dt
  | None => speedMs * dt
  end.

(** [calculateFeatures(sensorData)] (lines 255-423), run with the calls
    serialised as the hook's caller must: when [getElevation] awaits
    [fetchElevation], the await resumes at once with the outcome
    [apiElevation].  Returns [computed], the [elevationSource] tag and
    the refs afterwards. *)
Definition calculateFeatures (st : State Key N) (sensorData : SensorData N)
    (apiElevation : option N) : FeatureVector N * ElevationSource * State Key N :=
  let buffer := st.(bufferRef) in
  let tripState := st.(tripStateRef) in
  let lastPoint := getLast buffer in
  let speed := sensorData.(sd_speed) in
  let latitude := sensorData.(sd_latitude) in
  let longitude := sensorData.(sd_longitude) in
  let gpsAltitude := sensorData.(sd_gpsAltitude) in
  let timestamp := sensorData.(sd_timestamp) in
  let soc := sensorData.(sd_soc) in
  let ambientTemp := sensorData.(sd_ambientTemp) in
  (* Initialize start time *)
  let startTime' := match tripState.(startTime) with
                    | None => Some timestamp
                    | Some t => Some t
                    end in
  (* Get elevation from API (or cache/fallback) *)
  let '(elevation, elevationSource, st) :=
    resolveElevation st latitude longitude gpsAltitude apiElevation in
  (* Calculate time delta *)
  let dt := timeDelta lastPoint timestamp in
  (* Calculate acceleration (m/s^2) from speed change *)
  let speedMs := speed / jlit 36 10 in
  let prevSpeedMs := match lastPoint with
                     | Some lp => lp.(pt_speed) / jlit 36 10
                     | None => speedMs
                     end in
  let rawAcceleration := (speedMs - prevSpeedMs) / dt in
  let acceleration := jmax (jlit (-5) 1) (jmin (jlit 5 1) rawAcceleration) in
  (* Calculate distance using Haversine *)
  let distanceM := tickDistance lastPoint latitude longitude speedMs dt in
  let totalDistance' := tripState.(totalDistance) + distanceM in
  (* Calculate slope from elevation difference *)
  let prevElevation := match st.(lastElevationRef) with
                       | Some e => e
                       | None => elevation
                       end in
  let elevationDiff := elevation - prevElevation in
  let rawSlope := clampedRawSlope distanceM speed elevationDiff in
  (* Apply exponential smoothing to reduce noise *)
  let slope := ema rawSlope (Some st.(smoothedSlopeRef)) (jlit 15 100) in
  (* Add to buffer *)
  let buffer' := add buffer (mkPoint timestamp speed acceleration slope
                               elevation soc latitude longitude distanceM) in
  (* Get rolling statistics *)
  let speedStats10 := getStats buffer' (@pt_speed N) 10 in
  let accelStats5 := getStats buffer' (@pt_acceleration N) 5 in
  let slopeStats20 := getStats buffer' (@pt_slope N) 20 in
  (* Update cumulative elevation (only count significant changes > 0.3m) *)
  let tripState :=
    if jlit 3 10 <? elevationDiff
    then setCumulElevation tripState
           (tripState.(cumulElevationGain) + elevationDiff) tripState.(cumulElevationLoss)
    else if elevationDiff <? jlit (-3) 10
    then setCumulElevation tripState
           tripState.(cumulElevationGain) (tripState.(cumulElevationLoss) + jabs elevationDiff)
    else tripState in
  let gain := tripState.(cumulElevationGain) in
  let loss := tripState.(cumulElevationLoss) in
  (* Update time since stop *)
  let timeSinceStop' := if speed <? jlit 1 1 then jlit 0 1
                        else tripState.(timeSinceStop) + jlit 1 1 in
  (* SOC delta *)
  let socDelta := soc - tripState.(lastSoc) in
  let one := jlit 1 1 in
  let zero := jlit 0 1 in
  let computed := mkFeatureVector
    (* Base (11) *)
    speed (speed ** 2) (speed ** 3) acceleration slope (jabs slope)
    elevationDiff ambientTemp (jlit 3 1) soc socDelta
    (* Interactions (6) *)
    (speed * slope) (speed ** 2 * slope) (speed * jabs slope)
    (acceleration * speed) (acceleration * speed ** 2)
    (speed + jabs slope * jlit 10 1 + jabs acceleration * jlit 5 1)
    (* Rolling (7) *)
    speedStats10.(mean) speedStats10.(std) speedStats10.(max) speedStats10.(min)
    accelStats5.(mean) accelStats5.(std) slopeStats20.(mean)
    (* Binary state (4) *)
    (if jlit 1 10 <? acceleration then one else zero)
    (if acceleration <? jlit (-1) 10 then one else zero)
    (if (jabs acceleration <? jlit 1 10) && (jlit 5 1 <? speed) then one else zero)
    (if (slope <? jlit (-2) 1) && (jlit 30 1 <? speed) then one else zero)
    (* Cumulative (3) *)
    gain loss timeSinceStop'
    (* Categorical (3) *)
    (getSpeedRegime speed) (getSlopeCategory slope) (getTempCategory ambientTemp)
    (* Ratios (2) *)
    (acceleration / (speed + one)) (slope / (speed + one)) in
  let tripState' := mkTripState gain loss timeSinceStop' soc startTime' totalDistance' in
  (computed, elevationSource,
   mkState buffer' st.(elevationCacheRef) (Some elevation) slope
     st.(pendingElevationRef) tripState').

(** [reset(initialSoc)] (lines 179-202). *)
Definition reset (st : State Key N) (initialSoc : N) : State Key N :=
  mkState (clear st.(bufferRef)) [] None (jlit 0 1) false
    (mkTripState (jlit 0 1) (jlit 0 1) (jlit 0 1) initialSoc None (jlit 0 1)).

(** The refs when the hook mounts (lines 151-164). *)
Definition initialState : State Key N :=
  mkState (newDataBuffer 30) [] None (jlit 0 1) false
    (mkTripState (jlit 0 1) (jlit 0 1) (jlit 0 1) (jlit 80 1) None (jlit 0 1)).

(** Serialised calls of [calculateFeatures], one per tick. *)
Fixpoint run (st : State Key N) (ticks : list (SensorData N * option N))
    : list (FeatureVector N) * State Key N :=
  match ticks with
  | [] => ([], st)
  | (sd, api) :: rest =>
    let '(f, _, st') := calculateFeatures st sd api in
    let '(fs, st'') := run st' rest in
    (f :: fs, st'')
  end.
End Pipeline.

(** ** The hook over exact arithmetic *)

Module RealModel.
Import Real.
Local Open Scope R_scope.

(** [Math.atan2(y, x)] *)
Definition atan2 (y x : R) : R :=
  if Rlt_dec 0 x then atan (y / x)
  else if Rlt_dec x 0 then
    (if Rle_dec 0 y then atan (y / x) + PI else atan (y / x) - PI)
  else if Rlt_dec 0 y then PI / 2
  else if Rlt_dec y 0 then - (PI / 2)
  else 0.

(** [haversineDistance(lat1, lon1, lat2, lon2)] (lines 54-63). *)
Definition haversineDistance (lat1 lon1 lat2 lon2 : R) : R :=
  let R := 6371000 in
  let dLat := (lat2 - lat1) * PI / 180 in
  let dLon := (lon2 - lon1) * PI / 180 in
  let a := sin (dLat / 2) * sin (dLat / 2) +
           cos (lat1 * PI / 180) * cos (lat2 * PI / 180) *
           sin (dLon / 2) * sin (dLon / 2) in
  let c := 2 * atan2 (sqrt a) (sqrt (1 - a)) in
  R * c.

(** [x.toFixed(4)]: the sign, then the integer n nearest to |x|*10^4
    (ties upward), as in ECMAScript's Number.prototype.toFixed; from
    10^21 on, [String(x)]. *)
Inductive FixedKey := KFixed (negative : bool) (n : Z) | KBig (x : R).

Definition toFixed4 (x : R) : FixedKey :=
  if Rle_dec (10 ^ 21) (Rabs x) then KBig x
  else KFixed (if Rlt_dec x 0 then true else false) (up (Rabs x * 10000 + / 2) - 1).

Definition fixedKey_eqb (a b : FixedKey) : bool :=
  match a, b with
  | KFixed s1 n1, KFixed s2 n2 => Bool.eqb s1 s2 && Z.eqb n1 n2
  | KBig x1, KBig x2 => Real.reqb x1 x2
  | _, _ => false
  end.

Definition Key : Type := FixedKey * FixedKey.

Definition key_eqb (a b : Key) : bool :=
  fixedKey_eqb (fst a) (fst b) && fixedKey_eqb (snd a) (snd b).

(** [`${latitude.toFixed(4)},${longitude.toFixed(4)}`] *)
Definition cacheKey (latitude longitude : R) : Key :=
  (toFixed4 latitude, toFixed4 longitude).

Definition calculateFeatures := calculateFeatures Key key_eqb cacheKey haversineDistance.
Definition run := run Key key_eqb cacheKey haversineDistance.
Definition reset := reset (N := R) Key.
Definition tickDistance := tickDistance haversineDistance.
Definition resolveElevation := resolveElevation Key key_eqb cacheKey.
End RealModel.

(** ** Quantities named by the properties *)

(** The smoothed slope after [n] calls that all see the raw slope [s],
    from the reset value 0: [ema] of the source, iterated. *)
Definition ema_iter {N} `{JSNum N} (s : N) (n : nat) : N :=
  Nat.iter n (fun p => ema s (Some p) (jlit 15 100)) (jlit 0 1).

Module Observe.
Import Real.
Local Open Scope R_scope.

(** The local [rawSlope] of one call (lines 306-313), after the clamp. *)
Definition rawSlope (st : State RealModel.Key R) (sd : SensorData R)
    (api : option R) : R :=
  let lastPoint := getLast (bufferRef st) in
  let dt := timeDelta lastPoint (sd_timestamp sd) in
  let distanceM := RealModel.tickDistance lastPoint (sd_latitude sd)
                     (sd_longitude sd) (sd_speed sd / (36 / 10)) dt in
  clampedRawSlope distanceM (sd_speed sd)
    (elevation_diff (fst (fst (RealModel.calculateFeatures st sd api)))).

(** Every call of the run sees the raw slope [s]. *)
Fixpoint raw_const (s : R) (st : State RealModel.Key R)
    (ticks : list (SensorData R * option R)) : Prop :=
  match ticks with
  | [] => True
  | (sd, api) :: rest =>
    rawSlope st sd api = s /\
    raw_const s (snd (RealModel.calculateFeatures st sd api)) rest
  end.

(** A sample with no on-device altitude. *)
Definition sample (speed latitude longitude timestamp : R) : SensorData R :=
  mkSensorData speed latitude longitude None timestamp 80 20.

(** The hook just mounted and reset to 80 % state of charge. *)
Definition fresh : State RealModel.Key R :=
  RealModel.reset (initialState RealModel.Key) 80.

(** Two samples one second apart on the Greenwich meridian (longitude
    0), 0.09 degrees of latitude (about 10 km) apart, at 360 km/h. *)
Definition greenwich1 : SensorData R := sample 360 (5148 / 100) 0 0.
Definition greenwich2 : SensorData R := sample 360 (5157 / 100) 0 1.

(** Five samples at 5 km/h, one per second. *)
Definition cruise : list (SensorData R * option R) :=
  map (fun t => (sample 5 0 0 t, None)) [0; 1; 2; 3; 4].

(** A sample at 36 km/h at latitude and longitude 0 with the on-device
    altitude [elevation]: the coordinates 0 are falsy, so the next call
    covers [10 * dt] m. *)
Definition climb (timestamp elevation : R) : SensorData R :=
  mkSensorData 36 0 0 (Some elevation) timestamp 80 20.

(** A steady climb of 100 m per second: a first sample at 100 m, then two
    more, the elevation lookups failing. *)
Definition climb_first : SensorData R := climb 0 100.
Definition climb_ticks : list (SensorData R * option R) :=
  [(climb 1 200, None); (climb 2 300, None)].
End Observe.

Module Observe64.
Import F64 Floats.PrimFloat.
Local Open Scope float_scope.

(** On the first call after [reset] the elevation cache is empty and
    there is no previous point, so neither a cache key is compared nor a
    distance computed: these stand in for [toFixed(4)] and the haversine. *)
Definition noKey (_ _ : PrimFloat.float) : unit := tt.
Definition noKeyEqb (_ _ : unit) : bool := true.
Definition noDistance (_ _ _ _ : PrimFloat.float) : PrimFloat.float := 0.

(** A sample whose fields are all finite doubles; the speed is 2^342,
    about 9e102 km/h. *)
Definition fast_sample : SensorData PrimFloat.float :=
  mkSensorData 0x1p342 45 7 None 0 80 20.


Definition fresh (Key : Type) : State Key PrimFloat.float :=
  reset Key (initialState Key) 80.

(** The slope filter in binary64, over the first [n] calls that all see
    the raw slope [s], from the smoothed value 0: every value lies between
    0 and [s], none is farther from [s] than the one before, and from the
    19th call on the gap to [s] is at most 5 % of [|s|]. *)
Definition ema_approach_ok (s : float) (n : nat) : bool :=
  forallb (fun k =>
    let x := ema_iter s k in
    let x' := ema_iter s (S k) in
    (if 0 <=? s then (0 <=? x') && (x' <=? s) else (s <=? x') && (x' <=? 0)) &&
    (abs (s - x') <=? abs (s - x)) &&
    ((k <? 19)%nat || (abs (s - x) * 20 <=? abs s)))
    (seq 0 n).

(** Raw slopes within the clamp of lines 312-313: 20, -20, 5, -5, 1 and
    the doubles nearest to 0.1, 0.3 and 12.345. *)
Definition raw_slopes : list float :=
  [20; -20; 5; -5; 1; 0x1.999999999999ap-4; 0x1.3333333333333p-2; 0x1.8b0a3d70a3d71p+3].

(** Two samples one second apart at 36 km/h, on nearly antipodal
    points: (-72.82412835550339, -92.77318386817376) and then
    (72.82412835550339, 87.22681613182624). *)
Definition jump1 : SensorData float :=
  mkSensorData 36 (-0x1.234be84dba5f9p+6) (-0x1.7317bd830e678p+6) None 0 80 20.
Definition jump2 : SensorData float :=
  mkSensorData 36 0x1.234be84dba5f9p+6 0x1.5ce8427cf1988p+6 None 1 80 20.
End Observe64.

(** [haversineDistance] (lines 54-63) in binary64.  [Math.sin],
    [Math.cos] and [Math.atan2] are left as parameters: ECMAScript fixes
    them only approximately. *)
Module Haversine64.
Import F64 Floats.PrimFloat.
Local Open Scope float_scope.

(** [Math.PI] *)
Definition math_PI : float := 0x1.921fb54442d18p+1.

(** The arguments of [Math.sin] and [Math.cos] on the jump from
    [Observe64.jump1] to [Observe64.jump2]: [dLat / 2] and
    [lat2 * Math.PI / 180] are 1.2710208146984978, [lat1 * Math.PI / 180]
    its opposite, and [dLon / 2] is [Math.PI / 2]; then the correctly
    rounded sine of 1.2710208146984978, 0.9554028057647095, and its
    cosine, 0.29530573773111973. *)
Definition half_dlat : float := 0x1.45619ebfaa52bp+0.
Definition half_dlon : float := 0x1.921fb54442d18p+0.
Definition sin_half_dlat : float := 0x1.e92a8e7a883a0p-1.
Definition cos_lat : float := 0x1.2e64a09781581p-2.

Section Libm.
Variables (math_sin math_cos : float -> float) (math_atan2 : float -> float -> float).

Definition haversineDistance (lat1 lon1 lat2 lon2 : float) : float :=
  let R := 6371000 in
  let dLat := (lat2 - lat1) * math_PI / 180 in
  let dLon := (lon2 - lon1) * math_PI / 180 in
  let a := math_sin (dLat / 2) * math_sin (dLat / 2) +
           math_cos (lat1 * math_PI / 180) * math_cos (lat2 * math_PI / 180) *
           math_sin (dLon / 2) * math_sin (dLon / 2) in
  let c := 2 * math_atan2 (sqrt a) (sqrt (1 - a)) in
  R * c.
End Libm.

(** A [Math.sin] and a [Math.cos] given by their correctly rounded values
    at the arguments of [Observe64.jump1] and [Observe64.jump2] (0
    elsewhere), and a [Math.atan2] that is NaN on a NaN argument (0
    elsewhere). *)
Definition table_sin (x : float) : float :=
  if x =? half_dlat then sin_half_dlat else if x =? half_dlon then 1 else 0.
Definition table_cos (x : float) : float :=
  if abs x =? half_dlat then cos_lat else 0.
Definition nan_atan2 (y x : float) : float :=
  if is_nan x then nan else if is_nan y then nan else 0.
End Haversine64.

(** [getLastN(n)] of [DataBuffer] (lines 42-44). *)
Definition getLastN {A : Type} (b : DataBuffer A) (n : Z) : list A :=
  slice_from (- n) b.(data).

(** ** [usePrediction] (lines 462-567 of the same file) *)

Module Prediction.
Import Real Strings.String.
Local Open Scope R_scope.
Local Open Scope string_scope.

(** An entry of [specs]. *)
Record VehicleSpecs := mkVehicleSpecs {
  mass : R;
  cd_a : R;
  crr : R;
  efficiency : R;
  capacity : R
}.

Definition specsBEV1 : VehicleSpecs := mkVehicleSpecs 1900 (59 / 100) (1 / 100) (88 / 100) (605 / 10).
Definition specsBEV2 : VehicleSpecs := mkVehicleSpecs 2000 (59 / 100) (1 / 100) (88 / 100) (788 / 10).

(** The properties an object literal inherits from [Object.prototype]. *)
Definition objectPrototypeKeys : list string :=
  ["constructor"; "__defineGetter__"; "__defineSetter__"; "hasOwnProperty";
   "__lookupGetter__"; "__lookupSetter__"; "isPrototypeOf";
   "propertyIsEnumerable"; "toString"; "valueOf"; "__proto__";
   "toLocaleString"].

(** [specs[vehicle] || specs.BEV1]: an own entry, or [BEV1] when the key
    is absent; an inherited key yields a (truthy) function or object whose
    [mass], [cd_a], [crr] and [efficiency] are [undefined], given as [None]. *)
Definition specsOf (vehicle : string) : option VehicleSpecs :=
  if String.eqb vehicle "BEV1" then Some specsBEV1
  else if String.eqb vehicle "BEV2" then Some specsBEV2
  else if existsb (String.eqb vehicle) objectPrototypeKeys then None
  else Some specsBEV1.

(** [Math.round(x)]: the integer [floor(x + 0.5)]. *)
Definition math_round (x : R) : R := IZR (up (x + / 2) - 1).

(** The object returned by [predictLocal]; a power figure is [None] where
    the source computes [NaN] (only with an inherited [specs] key). *)
Record Prediction := mkPrediction {
  battery_power_kw : option R;
  efficiency_kwh_100km : option R;
  confidence : R;
  optimal_speed : R;
  model_used : string
}.

(** [predictLocal(featureData, vehicle)] (lines 471-535); the feature
    vector has every field, so the destructuring defaults never apply. *)
Definition predictLocal (featureData : option (FeatureVector R))
    (vehicle : string) : option Prediction :=
  match featureData with
  | None => None
  | Some fd =>
    let speed_kmh := speed_kmh fd in
    let acceleration := acceleration fd in
    let slope := slope fd in
    let VCFRONT_tempAmbient := VCFRONT_tempAmbient fd in
    let SOCave292 := SOCave292 fd in
    let speedMs := speed_kmh / (36 / 10) in
    let slopeRad := atan (slope / 100) in
    let rho := 1225 / 1000 in
    let g := 981 / 100 in
    (* Force calculations and battery power, NaN without specs *)
    let power_kw :=
      match specsOf vehicle with
      | None => None
      | Some sp =>
        let F_aero := 5 / 10 * rho * cd_a sp * speedMs ^ 2 in
        let F_roll := crr sp * mass sp * g * cos slopeRad in
        let F_grade := mass sp * g * sin slopeRad in
        let F_accel := mass sp * acceleration in
        let F_total := F_aero + F_roll + F_grade + F_accel in
        let P_wheels := (F_total * speedMs) / 1000 in
        let power_kw := if Rlt_dec 0 P_wheels then P_wheels / efficiency sp
                        else P_wheels * (7 / 10) in
        (* Auxiliary loads *)
        let aux := 5 / 10 in
        let aux := if Real.rltb VCFRONT_tempAmbient 10 || Real.rltb 25 VCFRONT_tempAmbient
                   then aux + 15 / 10 else aux in
        Some (power_kw + aux)
      end in
    let efficiency_kwh_100km :=
      if Rlt_dec 1 speed_kmh
      then option_map (fun p => (p / speed_kmh) * 100) power_kw
      else Some 0 in
    (* Optimal speed *)
    let optimal_speed := if Rlt_dec 0 speed_kmh then Rmin 95 (speed_kmh + 5) else 80 in
    let optimal_speed :=
      if Rlt_dec 5 slope then Rmin 70 optimal_speed
      else if Rlt_dec 2 slope then Rmin 85 optimal_speed
      else if Rlt_dec 110 speed_kmh then 95
      else optimal_speed in
    let optimal_speed := if Rlt_dec SOCave292 20 then Rmin 70 optimal_speed
                         else optimal_speed in
    Some (mkPrediction
            (option_map (fun p => math_round (p * 10) / 10) power_kw)
            (option_map (fun e => math_round (e * 10) / 10) efficiency_kwh_100km)
            (75 / 100) (math_round optimal_speed) "Physics Model (Local)")
  end.

(** The default of [vehicleId] in [usePrediction({ features, vehicleId = 'BEV1', ... })]. *)
Definition defaultVehicleId : string := "BEV1".

(** The state of [usePrediction]; [Date.now()] is in milliseconds. *)
Record PredictionState := mkPredictionState {
  prediction : option Prediction;
  error : option string;
  lastPredictionTime : Z
}.

Definition initialPredictionState : PredictionState := mkPredictionState None None 0.

(** A run of the auto-predict effect (with the hook's [enabled],
    [features], [vehicleId] and the time), or a call of [resetSession]. *)
Inductive PredictionEvent :=
| EffectRun (enabled : bool) (features : option (FeatureVector R))
            (vehicleId : string) (now : Z)
| ResetSession.

(** Lines 540-553 and 555-559; the flag tells whether the effect set a
    new prediction. *)
Definition predictionStep (s : PredictionState) (ev : PredictionEvent)
    : PredictionState * bool :=
  match ev with
  | EffectRun enabled features vehicleId now =>
    if negb enabled then (s, false)
    else match features with
         | None => (s, false)
         | Some _ =>
           if (now - lastPredictionTime s <? 900)%Z then (s, false)
           else (mkPredictionState (predictLocal features vehicleId) None now, true)
         end
  | ResetSession => (mkPredictionState None None 0, false)
  end.

(** The times at which the effect set a new prediction. *)
Fixpoint predictionTimes (s : PredictionState) (evs : list PredictionEvent) : list Z :=
  match evs with
  | [] => []
  | ev :: rest =>
    let '(s', fired) := predictionStep s ev in
    match ev with
    | EffectRun _ _ _ now =>
      if fired then now :: predictionTimes s' rest else predictionTimes s' rest
    | ResetSession => predictionTimes s' rest
    end
  end.
(** Times at least 900 ms apart, the first at least 900 ms after [prev]. *)
Fixpoint spaced (prev : Z) (times : list Z) : Prop :=
  match times with
  | [] => True
  | t :: rest => (prev + 900 <= t)%Z /\ spaced t rest
  end.
End Prediction.

(** ** The trip statistics of the dashboard ([useGeolocation.js], lines
    476-484 and 560-587) *)

Module App.
Import Real.
Local Open Scope R_scope.

Record AppTripState := mkAppTripState {
  isActive : bool;
  tripStartTime : option R;
  distance : R;
  energyUsed : R;
  avgEfficiency : R;
  currentSOC : R;
  initialSOC : R
}.

Definition initialTripState : AppTripState :=
  mkAppTripState false None 0 0 0 75 75.

(** The updater passed to [setTripState] (lines 568-586). *)
Definition updateTripStats (powerKw speedKmh batteryCapacity : R)
    (prev : AppTripState) : AppTripState :=
  let energyDelta := if Rlt_dec 0 powerKw then powerKw / 3600 else 0 in
  let regenEnergy := if Rlt_dec powerKw 0 then Rabs powerKw / 3600 else 0 in
  let newEnergy := energyUsed prev + energyDelta in
  let distanceDelta := speedKmh / 3600 in
  let newDistance := distance prev + distanceDelta in
  let socConsumption := (energyDelta / batteryCapacity) * 100 in
  let socRegen := (regenEnergy / batteryCapacity) * 100 * (7 / 10) in
  let newSOC := Rmax 0 (Rmin 100 (currentSOC prev - socConsumption + socRegen)) in
  mkAppTripState (isActive prev) (tripStartTime prev) newDistance newEnergy
    (if Rlt_dec (1 / 100) newDistance then (newEnergy / newDistance) * 100 else 0)
    newSOC (initialSOC prev).

(** The effect (lines 561-587): [prediction?.battery_power_kw || 0]
    (a [NaN] power is falsy) and [features.speed_kmh || 0];
    [batteryCapacity] is [BATTERY_CAPACITY[tripConfig?.vehicle] || 78.8]. *)
Definition tripStatsEffect (tripState : AppTripState)
    (prediction : option Prediction.Prediction) (features : option (FeatureVector R))
    (batteryCapacity : R) : AppTripState :=
  if negb (isActive tripState) then tripState
  else match features with
       | None => tripState
       | Some f =>
         let powerKw := match prediction with
                        | Some p => match Prediction.battery_power_kw p with
                                    | Some x => x
                                    | None => 0
                                    end
                        | None => 0
                        end in
         let speedKmh := speed_kmh f in
         updateTripStats powerKw speedKmh batteryCapacity tripState
       end.
End App.

(** * Properties *)

(** ** Structure of one call of [calculateFeatures] *)

Section Structure.
Context {N : Type} `{JSNum N}.
Variable Key : Type.
Variable key_eqb : Key -> Key -> bool.
Variable cacheKey : N -> N -> Key.

(** Resolving the elevation touches only the cache and the in-flight
    flag. *)
Lemma resolveElevation_keeps (st : State Key N) lat lon gps api :
  let '(_, _, st1) := resolveElevation Key key_eqb cacheKey st lat lon gps api in
  bufferRef st1 = bufferRef st /\ tripStateRef st1 = tripStateRef st /\
  smoothedSlopeRef st1 = smoothedSlopeRef st /\
  lastElevationRef st1 = lastElevationRef st.
Proof.
  unfold resolveElevation, getElevation, resumeElevation.
  repeat (cbn; match goal with
               | |- context [match ?x with _ => _ end] =>
                 lazymatch type of x with
                 | prod _ _ => fail
                 | _ => destruct x eqn:?
                 end
               end).
  all: cbn; repeat split; auto.
Qed.
End Structure.

Ltac open_call :=
  match goal with
  | |- context [resolveElevation ?K ?ke ?ck ?st ?la ?lo ?g ?a] =>
    let E := fresh "E" in
    pose proof (resolveElevation_keeps K ke ck st la lo g a) as E;
    destruct (resolveElevation K ke ck st la lo g a) as [[?elev ?src] ?st1];
    destruct E as [?Hbuf [?Htrip [?Hslope ?Hlast]]]
  end.

(** ** Exact-arithmetic facts *)

Module RealFacts.
Import Real.
Local Open Scope R_scope.

Lemma ltb_spec (a b : R) : Real.rltb a b = true <-> a < b.
Proof. unfold Real.rltb; destruct (Rlt_dec a b); split; intros; auto; discriminate. Qed.

Lemma ltb_false (a b : R) : Real.rltb a b = false <-> ~ a < b.
Proof. unfold Real.rltb; destruct (Rlt_dec a b); split; intros; auto; try discriminate; contradiction. Qed.

Ltac no_test t :=
  lazymatch t with
  | context [Rle_dec _ _] => fail
  | context [Real.rltb _ _] => fail
  | _ => idtac
  end.

(** Case analysis on the comparisons of a goal, innermost first. *)
Ltac rcases :=
  unfold Rmax, Rmin in *;
  repeat (cbn [andb orb negb]; match goal with
  | |- context [Real.rltb ?a ?b] =>
    no_test a; no_test b;
    let E := fresh "Hlt" in
    destruct (Real.rltb a b) eqn:E; [apply ltb_spec in E | apply ltb_false in E]
  | |- context [Rle_dec ?a ?b] =>
    no_test a; no_test b; destruct (Rle_dec a b)
  | |- context [Rlt_dec ?a ?b] =>
    no_test a; no_test b; destruct (Rlt_dec a b)
  end).


(** One call, in terms of the quantities of the source. *)
Lemma calculateFeatures_step (st : State RealModel.Key R) sd api :
  let '(f, _, st') := RealModel.calculateFeatures st sd api in
  let t := tripStateRef st in
  let t' := tripStateRef st' in
  let lastPoint := getLast (bufferRef st) in
  let dt := timeDelta lastPoint (sd_timestamp sd) in
  let distanceM := RealModel.tickDistance lastPoint (sd_latitude sd)
                     (sd_longitude sd) (sd_speed sd / (36 / 10)) dt in
  let diff := elevation_diff f in
  totalDistance t' = totalDistance t + distanceM /\
  smoothedSlopeRef st' =
    15 / 100 * clampedRawSlope distanceM (sd_speed sd) diff +
    (1 / 1 - 15 / 100) * smoothedSlopeRef st /\
  slope f = smoothedSlopeRef st' /\
  cumulElevationGain t' =
    (if Rlt_dec (3 / 10) diff then cumulElevationGain t + diff
     else cumulElevationGain t) /\
  cumulElevationLoss t' =
    (if Rlt_dec diff (- (3 / 10)) then cumulElevationLoss t + Rabs diff
     else cumulElevationLoss t) /\
  cumul_elevation_gain f = cumulElevationGain t' /\
  cumul_elevation_loss f = cumulElevationLoss t'.
Proof.
  unfold RealModel.calculateFeatures, calculateFeatures, RealModel.tickDistance.
  open_call. cbn -[clampedRawSlope tickDistance timeDelta getLast].
  rewrite Hslope.
  rcases; cbn; repeat split; try reflexivity; lra.
Qed.

Lemma run_cons (st : State RealModel.Key R) sd api rest :
  snd (RealModel.run st ((sd, api) :: rest)) =
  snd (RealModel.run (snd (RealModel.calculateFeatures st sd api)) rest).
Proof.
  unfold RealModel.run, RealModel.calculateFeatures.
  repeat (simpl; match goal with
                 | |- context [match ?c with pair _ _ => _ end] => destruct c
                 end).
  reflexivity.
Qed.

Lemma run_features_cons (st : State RealModel.Key R) sd api rest :
  fst (RealModel.run st ((sd, api) :: rest)) =
  fst (fst (RealModel.calculateFeatures st sd api)) ::
  fst (RealModel.run (snd (RealModel.calculateFeatures st sd api)) rest).
Proof.
  unfold RealModel.run, RealModel.calculateFeatures.
  repeat (simpl; match goal with
                 | |- context [match ?c with pair _ _ => _ end] => destruct c
                 end).
  reflexivity.
Qed.

(** One call: [timeSinceStop] is reset below 1 km/h and otherwise
    counts the call. *)
Lemma timeSinceStop_step (st : State RealModel.Key R) sd api :
  let '(f, _, st') := RealModel.calculateFeatures st sd api in
  let tss := if Rlt_dec (sd_speed sd) 1 then 0
             else timeSinceStop (tripStateRef st) + 1 in
  timeSinceStop (tripStateRef st') = tss /\ time_since_stop f = tss.
Proof.
  unfold RealModel.calculateFeatures, calculateFeatures.
  open_call. cbn. rcases; cbn; split; lra.
Qed.

End RealFacts.

Import Real RealFacts.


(** ** The buffer *)

Section BufferFacts.
Context {A : Type}.
Local Open Scope nat_scope.

Lemma add_maxSize (b : DataBuffer A) p : maxSize (add b p) = maxSize b.
Proof. unfold add. destruct (Nat.ltb _ _); reflexivity. Qed.

Lemma fold_add_maxSize (l : list A) (b : DataBuffer A) :
  maxSize (fold_left add l b) = maxSize b.
Proof.
  revert b; induction l as [|p l IH]; intros b; [reflexivity|].
  cbn. rewrite IH. apply add_maxSize.
Qed.

Lemma tl_skipn (k : nat) (l : list A) : tl (skipn k l) = skipn (S k) l.
Proof.
  revert l; induction k as [|k IH]; intros [|x l]; try reflexivity.
  cbn. apply (IH l).
Qed.

(** From an empty buffer of size [n], the adds leave the last [n]
    points, oldest first. *)
Lemma fold_add_data (n : nat) (l : list A) :
  data (fold_left add l (mkDataBuffer n [])) = skipn (length l - n) l.
Proof.
  induction l as [|p l IH] using rev_ind; [reflexivity|].
  rewrite fold_left_app. cbn [fold_left].
  pose proof (fold_add_maxSize l (mkDataBuffer n [])) as Hm. cbn in Hm.
  unfold add at 1. cbv zeta. rewrite Hm, IH.
  rewrite !length_app, length_skipn. cbn [length].
  destruct (Nat.ltb_spec n (length l - (length l - n) + 1)) as [Hlt|Hge];
    cbn [data].
  - replace (length l + 1 - n) with (S (length l - n)) by lia.
    rewrite <- tl_skipn, skipn_app.
    replace (length l - n - length l) with 0 by lia. reflexivity.
  - replace (length l - n) with 0 by lia.
    replace (length l + 1 - n) with 0 by lia. reflexivity.
Qed.
End BufferFacts.

(** ** Runs of serialised calls *)

Section RunFacts.
Local Open Scope R_scope.

Lemma run_preserves (P : State RealModel.Key R -> Prop)
    (Q : FeatureVector R -> Prop) (G : SensorData R -> Prop) :
  (forall st sd api, P st -> G sd ->
     P (snd (RealModel.calculateFeatures st sd api)) /\
     Q (fst (fst (RealModel.calculateFeatures st sd api)))) ->
  forall ticks st, P st -> Forall (fun t => G (fst t)) ticks ->
    P (snd (RealModel.run st ticks)) /\ Forall Q (fst (RealModel.run st ticks)).
Proof.
  intros Hstep ticks. induction ticks as [|[sd api] rest IH]; intros st Hp Hg.
  - split; [exact Hp | constructor].
  - inversion Hg as [|? ? Hg1 Hgs]; subst. cbn [fst] in Hg1.
    destruct (Hstep st sd api Hp Hg1) as [Hp' Hq].
    destruct (IH _ Hp' Hgs) as [Hp'' Hqs].
    rewrite run_cons, run_features_cons. split; [exact Hp'' | constructor; assumption].
Qed.


Lemma run_time_since_stop (ticks : list (SensorData R * option R)) :
  forall st, Forall (fun t => 1 <= sd_speed (fst t)) ticks ->
  timeSinceStop (tripStateRef (snd (RealModel.run st ticks))) =
  timeSinceStop (tripStateRef st) + INR (length ticks).
Proof.
  induction ticks as [|[sd api] rest IH]; intros st Hg.
  - cbn. lra.
  - inversion Hg as [|? ? Hg1 Hgs]; subst. cbn [fst] in Hg1.
    rewrite run_cons, IH by exact Hgs.
    pose proof (timeSinceStop_step st sd api) as Hs.
    destruct (RealModel.calculateFeatures st sd api) as [[f src] st'].
    cbv zeta in Hs. cbn [snd]. destruct Hs as [Hs _]. rewrite Hs.
    destruct (Rlt_dec _ _); [lra|].
    rewrite length_cons, S_INR. lra.
Qed.
End RunFacts.

(** ** The slope filter *)

Section SlopeFilter.
Local Open Scope R_scope.

Lemma smoothed_step (st : State RealModel.Key R) sd api :
  smoothedSlopeRef (snd (RealModel.calculateFeatures st sd api)) =
    ema (Observe.rawSlope st sd api) (Some (smoothedSlopeRef st)) (jlit 15 100) /\
  slope (fst (fst (RealModel.calculateFeatures st sd api))) =
    smoothedSlopeRef (snd (RealModel.calculateFeatures st sd api)).
Proof.
  pose proof (calculateFeatures_step st sd api) as Hs.
  unfold Observe.rawSlope.
  destruct (RealModel.calculateFeatures st sd api) as [[f src] st'].
  cbv zeta in Hs. cbn [fst snd]. destruct Hs as (_ & Hsm & Hsl & _).
  split; [|exact Hsl]. rewrite Hsm. reflexivity.
Qed.

Lemma ema_iter_closed (s : R) (n : nat) :
  ema_iter s n = s * (1 - (85 / 100) ^ n).
Proof.
  induction n as [|n IH]; [cbn; field|].
  unfold ema_iter in *. rewrite Nat.iter_succ, IH. cbn. field.
Qed.

Lemma run_raw_const (s : R) ticks :
  forall st n, smoothedSlopeRef st = ema_iter s n ->
  Observe.raw_const s st ticks ->
  smoothedSlopeRef (snd (RealModel.run st ticks)) = ema_iter s (n + length ticks).
Proof.
  induction ticks as [|[sd api] rest IH]; intros st n Hn Hr.
  - cbn. rewrite Nat.add_0_r. exact Hn.
  - destruct Hr as [Hr1 Hrs]. rewrite run_cons.
    rewrite length_cons, <- Nat.add_succ_comm.
    apply IH; [|exact Hrs].
    rewrite (proj1 (smoothed_step st sd api)), Hr1, Hn.
    unfold ema_iter. rewrite Nat.iter_succ. reflexivity.
Qed.

Lemma pow85_pos (n : nat) : 0 < (85 / 100) ^ n.
Proof. apply pow_lt. lra. Qed.

Lemma pow85_le_1 (n : nat) : (85 / 100) ^ n <= 1.
Proof.
  induction n as [|n IH]; cbn; [lra|].
  pose proof (pow85_pos n). lra.
Qed.

(** Without a last elevation the elevation difference is 0, and so is
    the raw slope. *)
Lemma rawSlope_no_last (st : State RealModel.Key R) sd api :
  lastElevationRef st = None -> Observe.rawSlope st sd api = 0.
Proof.
  intros Hn. unfold Observe.rawSlope.
  unfold RealModel.calculateFeatures, calculateFeatures.
  open_call. cbn [fst elevation_diff]. rewrite Hlast, Hn.
  unfold clampedRawSlope. cbn. replace (elev - elev) with 0 by ring.
  rcases; lra.
Qed.

(** The first call after [reset] sees the raw slope 0 and keeps the
    smoothed slope at 0. *)
Lemma reset_first_call (st0 : State RealModel.Key R) soc sd api :
  Observe.rawSlope (RealModel.reset st0 soc) sd api = 0 /\
  smoothedSlopeRef (snd (RealModel.calculateFeatures (RealModel.reset st0 soc) sd api)) = 0.
Proof.
  assert (Hr : Observe.rawSlope (RealModel.reset st0 soc) sd api = 0)
    by (apply rawSlope_no_last; reflexivity).
  split; [exact Hr|].
  rewrite (proj1 (smoothed_step _ sd api)), Hr. cbn. field.
Qed.

(** The calls of the climb after its first sample all see the raw slope
    20: 100 m over 10 m, clamped. *)
Lemma climb_raw_const :
  Observe.raw_const 20
    (snd (RealModel.calculateFeatures Observe.fresh Observe.climb_first None))
    Observe.climb_ticks.
Proof.
  cbn [Observe.raw_const Observe.climb_ticks]. split; [|split; [|exact I]].
  all: unfold Observe.rawSlope; cbn; unfold reqb;
    destruct (Req_dec_T 0 (0 / 1)) as [_|Hne]; [|exfalso; apply Hne; field];
    cbn [negb andb];
    replace (36 / (36 / 10)) with 10 by field;
    rcases; lra.
Qed.
End SlopeFilter.

(** * The claims *)

Local Open Scope R_scope.


(** C3: each call sets the smoothed slope to [ema] of the raw slope with
    alpha 0.15.  The first call after [reset] has no previous elevation,
    so it sees the raw slope 0 and keeps the smoothed slope at 0; from a
    smoothed slope 0, in particular after that first call, [n] calls that
    all see the raw slope [s] end at [s * (1 - 0.85^n)].  For [s <> 0]
    that value never moves away from [s], stays between 0 and [s], and is
    within 5 % of [s] from 19 calls on.  In binary64 the first 400 values
    behave the same way for the raw slopes of [Observe64.raw_slopes]. *)
Theorem slope_ema_converges (s : R) :
  s <> 0 ->
  (forall (st : State RealModel.Key R) sd api,
     smoothedSlopeRef (snd (RealModel.calculateFeatures st sd api)) =
       ema (Observe.rawSlope st sd api) (Some (smoothedSlopeRef st)) (jlit 15 100) /\
     slope (fst (fst (RealModel.calculateFeatures st sd api))) =
       smoothedSlopeRef (snd (RealModel.calculateFeatures st sd api))) /\
  (forall (st0 : State RealModel.Key R) soc sd api,
     Observe.rawSlope (RealModel.reset st0 soc) sd api = 0 /\
     smoothedSlopeRef (snd (RealModel.calculateFeatures (RealModel.reset st0 soc) sd api)) = 0) /\
  (forall (st : State RealModel.Key R) ticks,
     smoothedSlopeRef st = 0 ->
     Observe.raw_const s st ticks ->
     smoothedSlopeRef (snd (RealModel.run st ticks)) = ema_iter s (length ticks)) /\
  (forall (st0 : State RealModel.Key R) soc sd api ticks,
     Observe.raw_const s (snd (RealModel.calculateFeatures (RealModel.reset st0 soc) sd api)) ticks ->
     smoothedSlopeRef (snd (RealModel.run (RealModel.reset st0 soc) ((sd, api) :: ticks))) =
       ema_iter s (length ticks)) /\
  (forall n, ema_iter s n = s * (1 - (85 / 100) ^ n)) /\
  (forall n, Rabs (s - ema_iter s (S n)) <= Rabs (s - ema_iter s n)) /\
  (forall n, Rmin 0 s <= ema_iter s n <= Rmax 0 s) /\
  (forall n, (19 <= n)%nat -> Rabs (s - ema_iter s n) <= 5 / 100 * Rabs s) /\
  forallb (fun x => Observe64.ema_approach_ok x 400) Observe64.raw_slopes = true.
Proof.
  intros Hs.
  assert (Hgap : forall n, Rabs (s - ema_iter s n) = Rabs s * (85 / 100) ^ n).
  { intros n. rewrite ema_iter_closed.
    replace (s - s * (1 - (85 / 100) ^ n)) with (s * (85 / 100) ^ n) by ring.
    rewrite Rabs_mult, (Rabs_pos_eq ((85 / 100) ^ n)); [reflexivity|].
    left; apply pow85_pos. }
  assert (Habs : 0 < Rabs s) by (apply Rabs_pos_lt; exact Hs).
  assert (Hzero : forall (st : State RealModel.Key R) ticks,
     smoothedSlopeRef st = 0 ->
     Observe.raw_const s st ticks ->
     smoothedSlopeRef (snd (RealModel.run st ticks)) = ema_iter s (length ticks)).
  { intros st ticks H0 Hr.
    apply (run_raw_const s ticks _ 0); [|exact Hr]. rewrite H0. cbn. lra. }
  split; [exact smoothed_step|].
  split; [exact reset_first_call|].
  split; [exact Hzero|].
  split.
  { intros st0 soc sd api ticks Hr. rewrite run_cons.
    apply Hzero; [apply reset_first_call | exact Hr]. }
  split; [exact (ema_iter_closed s)|].
  split.
  { intros n. rewrite !Hgap. cbn [pow].
    pose proof (pow85_pos n). nra. }
  split.
  { intros n. rewrite ema_iter_closed.
    pose proof (pow85_pos n). pose proof (pow85_le_1 n).
    unfold Rmin, Rmax. destruct (Rle_dec 0 s); split; nra. }
  split.
  { intros n Hn. rewrite Hgap.
    replace n with (19 + (n - 19))%nat by lia. rewrite pow_add.
    pose proof (pow85_pos (n - 19)). pose proof (pow85_le_1 (n - 19)).
    assert (H19 : (85 / 100) ^ 19 <= 5 / 100) by (cbn; lra).
    assert (0 < (85 / 100) ^ 19) by apply pow85_pos.
    nra. }
  vm_compute. reflexivity.
Qed.

(** Witness of C3: a steady climb after a reset, whose calls after the
    first all see the raw slope 20. *)
Lemma slope_ema_converges_witness :
  (20 <> 0) /\
  Observe.raw_const 20
    (snd (RealModel.calculateFeatures Observe.fresh Observe.climb_first None))
    Observe.climb_ticks /\
  smoothedSlopeRef (snd (RealModel.run Observe.fresh
                           ((Observe.climb_first, None) :: Observe.climb_ticks))) =
    ema_iter 20 2.
Proof.
  assert (H20 : (20 : R) <> 0) by lra.
  split; [exact H20|]. split; [exact climb_raw_const|].
  exact (proj1 (proj2 (proj2 (proj2 (slope_ema_converges 20 H20))))
           (initialState RealModel.Key) 80 Observe.climb_first None Observe.climb_ticks
           climb_raw_const).
Defined.

(** C5, as the source has it, in binary64: after reset, a sample at
    (-72.82412835550339, -92.77318386817376) and then one at
    (72.82412835550339, 87.22681613182624), nearly antipodal.  The first
    call adds a finite distance.  On the second, the haversine term [a]
    rounds to 1.0000000000000002, so [Math.sqrt(1 - a)] is NaN, and so
    are [Math.atan2], the distance, [Math.min(NaN, 50)] and the total
    distance, which is then not [>=] the previous total.  This holds for
    any [Math.sin] and [Math.cos] returning the correctly rounded values
    at the four arguments involved, any [Math.atan2] returning NaN on a
    NaN argument (as ECMAScript requires), and any cache key. *)
Theorem antipodal_jump_distance_nan (Key : Type) (key_eqb : Key -> Key -> bool)
    (cacheKey : PrimFloat.float -> PrimFloat.float -> Key)
    (math_sin math_cos : PrimFloat.float -> PrimFloat.float)
    (math_atan2 : PrimFloat.float -> PrimFloat.float -> PrimFloat.float) :
  math_sin Haversine64.half_dlat = Haversine64.sin_half_dlat ->
  math_cos (PrimFloat.opp Haversine64.half_dlat) = Haversine64.cos_lat ->
  math_cos Haversine64.half_dlat = Haversine64.cos_lat ->
  math_sin Haversine64.half_dlon = PrimFloat.one ->
  (forall y, math_atan2 y PrimFloat.nan = PrimFloat.nan) ->
  let h := Haversine64.haversineDistance math_sin math_cos math_atan2 in
  let st1 := snd (@calculateFeatures _ F64.js_float Key key_eqb cacheKey h
                    (Observe64.fresh Key) Observe64.jump1 None) in
  let st2 := snd (@calculateFeatures _ F64.js_float Key key_eqb cacheKey h
                    st1 Observe64.jump2 None) in
  PrimFloat.is_finite (totalDistance (tripStateRef st1)) = true /\
  PrimFloat.is_nan (totalDistance (tripStateRef st2)) = true /\
  PrimFloat.leb (totalDistance (tripStateRef st1)) (totalDistance (tripStateRef st2)) = false.
Proof.
  intros H1 H2 H3 H4 H5. vm_compute in H1, H2, H3, H4. cbv zeta. vm_compute.
  rewrite H1, H2, H3, H4. vm_compute. rewrite H5. vm_compute.
  repeat split.
Qed.

(** Witness of C5: the tabulated [Math.sin], [Math.cos] and [Math.atan2]. *)
Lemma antipodal_jump_distance_nan_witness :
  (Haversine64.table_sin Haversine64.half_dlat = Haversine64.sin_half_dlat /\
   Haversine64.table_cos (PrimFloat.opp Haversine64.half_dlat) = Haversine64.cos_lat /\
   Haversine64.table_cos Haversine64.half_dlat = Haversine64.cos_lat /\
   Haversine64.table_sin Haversine64.half_dlon = PrimFloat.one /\
   (forall y, Haversine64.nan_atan2 y PrimFloat.nan = PrimFloat.nan)) /\
  PrimFloat.is_nan
    (totalDistance (tripStateRef
       (snd (@calculateFeatures _ F64.js_float unit Observe64.noKeyEqb Observe64.noKey
               (Haversine64.haversineDistance Haversine64.table_sin Haversine64.table_cos
                  Haversine64.nan_atan2)
               (snd (@calculateFeatures _ F64.js_float unit Observe64.noKeyEqb Observe64.noKey
                       (Haversine64.haversineDistance Haversine64.table_sin
                          Haversine64.table_cos Haversine64.nan_atan2)
                       (Observe64.fresh unit) Observe64.jump1 None))
               Observe64.jump2 None)))) = true.
Proof.
  assert (H1 : Haversine64.table_sin Haversine64.half_dlat = Haversine64.sin_half_dlat)
    by (vm_compute; reflexivity).
  assert (H2 : Haversine64.table_cos (PrimFloat.opp Haversine64.half_dlat) = Haversine64.cos_lat)
    by (vm_compute; reflexivity).
  assert (H3 : Haversine64.table_cos Haversine64.half_dlat = Haversine64.cos_lat)
    by (vm_compute; reflexivity).
  assert (H4 : Haversine64.table_sin Haversine64.half_dlon = PrimFloat.one)
    by (vm_compute; reflexivity).
  assert (H5 : forall y, Haversine64.nan_atan2 y PrimFloat.nan = PrimFloat.nan)
    by (intros y; reflexivity).
  split; [repeat split; assumption|].
  exact (proj1 (proj2 (antipodal_jump_distance_nan unit Observe64.noKeyEqb Observe64.noKey
                         _ _ _ H1 H2 H3 H4 H5))).
Defined.

(** C9: a call sets [timeSinceStop] to 0 below 1 km/h and otherwise adds
    exactly 1 to it, whatever the time between samples; hence a run whose
    speeds are all at least 1 km/h adds its number of calls. *)
Theorem time_since_stop_counts_ticks (st : State RealModel.Key R) ticks :
  Forall (fun t => 1 <= sd_speed (fst t)) ticks ->
  (forall (st1 : State RealModel.Key R) sd api,
     let '(f, _, st') := RealModel.calculateFeatures st1 sd api in
     let tss := if Rlt_dec (sd_speed sd) 1 then 0
                else timeSinceStop (tripStateRef st1) + 1 in
     timeSinceStop (tripStateRef st') = tss /\ time_since_stop f = tss) /\
  timeSinceStop (tripStateRef (snd (RealModel.run st ticks))) =
    timeSinceStop (tripStateRef st) + INR (length ticks).
Proof.
  intros Hg. split; [exact timeSinceStop_step|].
  exact (run_time_since_stop ticks st Hg).
Qed.

(** Witness of C9: five samples at 5 km/h after a reset give 5. *)
Lemma time_since_stop_counts_ticks_witness :
  Forall (fun t => 1 <= sd_speed (fst t)) Observe.cruise /\
  timeSinceStop (tripStateRef (snd (RealModel.run Observe.fresh Observe.cruise))) = 5.
Proof.
  assert (Hf : Forall (fun t => 1 <= sd_speed (fst t)) Observe.cruise)
    by (repeat constructor; cbn; lra).
  split; [exact Hf|].
  rewrite (proj2 (time_since_stop_counts_ticks Observe.fresh Observe.cruise Hf)).
  cbn. lra.
Defined.

(** C10: on a call whose buffer is empty, as after [reset], the previous
    speed is the current one, so the acceleration is 0 whatever the speed,
    and [is_accelerating] and [is_braking] are 0. *)
Theorem first_sample_zero_acceleration (st : State RealModel.Key R) sd api :
  data (bufferRef st) = [] ->
  let f := fst (fst (RealModel.calculateFeatures st sd api)) in
  acceleration f = 0 /\ is_accelerating f = 0 /\ is_braking f = 0.
Proof.
  intros Hd.
  assert (Hl : getLast (bufferRef st) = None) by (unfold getLast; rewrite Hd; reflexivity).
  unfold RealModel.calculateFeatures, calculateFeatures.
  rewrite Hl. open_call. cbn.
  rewrite Rminus_diag, Rdiv_0_l.
  rcases; repeat split; lra.
Qed.

(** Witness of C10: the first sample after a reset, at 50 km/h. *)
Lemma first_sample_zero_acceleration_witness :
  data (bufferRef Observe.fresh) = [] /\
  acceleration (fst (fst (RealModel.calculateFeatures Observe.fresh
                            (Observe.sample 50 45 7 0) None))) = 0.
Proof.
  assert (Hd : data (bufferRef Observe.fresh) = []) by reflexivity.
  split; [exact Hd|].
  exact (proj1 (first_sample_zero_acceleration Observe.fresh _ None Hd)).
Defined.

(** ** The last point of the buffer *)

Lemma getLast_add {A : Type} (b : DataBuffer A) (p : A) :
  (0 < maxSize b)%nat -> getLast (add b p) = Some p.
Proof.
  intros Hm. unfold getLast, add.
  destruct (Nat.ltb_spec (maxSize b) (length (data b ++ [p]))) as [Hlt|Hge]; cbn [data].
  - destruct (data b) as [|x xs] eqn:Ed.
    + cbn in Hlt. lia.
    + cbn [app tl]. rewrite map_app. apply last_last.
  - rewrite map_app. apply last_last.
Qed.

Lemma calculateFeatures_last (st : State RealModel.Key R) sd api :
  (0 < maxSize (bufferRef st))%nat ->
  exists p, getLast (bufferRef (snd (RealModel.calculateFeatures st sd api))) = Some p /\
    pt_timestamp p = sd_timestamp sd /\ pt_speed p = sd_speed sd /\
    pt_latitude p = sd_latitude sd /\ pt_longitude p = sd_longitude sd.
Proof.
  intros Hm. unfold RealModel.calculateFeatures, calculateFeatures.
  open_call. cbn [snd bufferRef]. rewrite getLast_add by exact Hm.
  eexists; repeat split; reflexivity.
Qed.

(** The first call after [reset] in binary64 does not depend on the cache
    key function nor on the distance function. *)
Lemma first_call_independent (Key : Type) key_eqb cacheKey haversine :
  fst (fst (@calculateFeatures _ F64.js_float Key key_eqb cacheKey haversine
              (Observe64.fresh Key) Observe64.fast_sample None)) =
  fst (fst (@calculateFeatures _ F64.js_float unit Observe64.noKeyEqb
              Observe64.noKey Observe64.noDistance
              (Observe64.fresh unit) Observe64.fast_sample None)).
Proof. vm_compute. reflexivity. Qed.



(** C4, as the source has it: the previous sample lies on the Greenwich
    meridian, so its longitude 0 is falsy and the position test fails;
    the second call adds [speed / 3.6 * dt = 100] m to the total distance,
    not at most 50 m, though the two positions are 0.09 degrees apart. *)
Theorem greenwich_distance_not_capped :
  let st1 := snd (RealModel.calculateFeatures Observe.fresh Observe.greenwich1 None) in
  let st2 := snd (RealModel.calculateFeatures st1 Observe.greenwich2 None) in
  (exists p, getLast (bufferRef st1) = Some p /\
     pt_latitude p = 5148 / 100 /\ pt_longitude p = 0) /\
  totalDistance (tripStateRef st2) = totalDistance (tripStateRef st1) + 100.
Proof.
  cbv zeta.
  destruct (calculateFeatures_last Observe.fresh Observe.greenwich1 None ltac:(cbn; lia))
    as (p & Hl & Ht & Hsp & Hla & Hlo).
  split; [exists p; split; [exact Hl | split; assumption]|].
  pose proof (calculateFeatures_step
                (snd (RealModel.calculateFeatures Observe.fresh Observe.greenwich1 None))
                Observe.greenwich2 None) as Hs.
  destruct (RealModel.calculateFeatures
              (snd (RealModel.calculateFeatures Observe.fresh Observe.greenwich1 None))
              Observe.greenwich2 None) as [[f src] st2].
  cbv zeta in Hs. destruct Hs as (Hd & _). cbn [snd]. rewrite Hd, Hl.
  unfold RealModel.tickDistance, tickDistance, timeDelta, jtruthy.
  cbn -[Rmax Rmin]. rewrite Hlo, Ht. unfold Real.reqb.
  unfold Observe.greenwich1, Observe.sample. cbn [sd_longitude sd_timestamp].
  destruct (Req_dec_T 0 (0 / 1)) as [_|Hne]; [|exfalso; apply Hne; field].
  rewrite andb_false_r. rcases; lra.
Qed.

(** ** Rolling statistics *)

Section StatsFacts.
Context {A : Type}.

Lemma filter_notNaN_R (l : list R) :
  filter (fun v => negb (jisNaN v)) l = l.
Proof. induction l as [|x l IH]; cbn; [reflexivity | f_equal; exact IH]. Qed.

Lemma slice_from_window (w : Z) (l : list A) :
  (1 <= w)%Z -> slice_from (- w) l = skipn (length l - Z.to_nat w) l.
Proof.
  intros Hw. unfold slice_from.
  destruct (Z.ltb_spec (- w) 0) as [_|Hge]; [|lia].
  f_equal. lia.
Qed.

Lemma fold_left_Rplus (l : list R) (a : R) :
  fold_left Rplus l a = a + fold_right Rplus 0 l.
Proof.
  revert a; induction l as [|x l IH]; intros a; cbn; [lra|].
  rewrite IH. lra.
Qed.

Lemma sum_R (l : list R) : sum l = fold_right Rplus 0 l.
Proof. unfold sum. cbn. rewrite fold_left_Rplus. lra. Qed.

Lemma fold_Rmax (vs : list R) (v : R) :
  In (fold_left Rmax vs v) (v :: vs) /\
  Forall (fun x => x <= fold_left Rmax vs v) (v :: vs).
Proof.
  revert v; induction vs as [|x vs IH]; intros v.
  - cbn. split; [now left | constructor; [lra | constructor]].
  - cbn [fold_left]. destruct (IH (Rmax v x)) as [Hin Hall].
    inversion Hall as [|? ? Hm Hrest]; subst.
    pose proof (Rmax_l v x). pose proof (Rmax_r v x).
    split.
    + destruct Hin as [Heq|Hin].
      * rewrite <- Heq. unfold Rmax. destruct (Rle_dec v x); [right; now left | now left].
      * right; right; exact Hin.
    + constructor; [lra|]. constructor; [lra | exact Hrest].
Qed.

Lemma fold_Rmin (vs : list R) (v : R) :
  In (fold_left Rmin vs v) (v :: vs) /\
  Forall (fun x => fold_left Rmin vs v <= x) (v :: vs).
Proof.
  revert v; induction vs as [|x vs IH]; intros v.
  - cbn. split; [now left | constructor; [lra | constructor]].
  - cbn [fold_left]. destruct (IH (Rmin v x)) as [Hin Hall].
    inversion Hall as [|? ? Hm Hrest]; subst.
    pose proof (Rmin_l v x). pose proof (Rmin_r v x).
    split.
    + destruct Hin as [Heq|Hin].
      * rewrite <- Heq. unfold Rmin. destruct (Rle_dec v x); [now left | right; now left].
      * right; right; exact Hin.
    + constructor; [lra|]. constructor; [lra | exact Hrest].
Qed.

Lemma jlit_length (l : list R) : jlit (Z.of_nat (length l)) 1 = INR (length l).
Proof. cbn. rewrite <- INR_IZR_INZ. field. Qed.
End StatsFacts.

(** C6: from the empty buffer of 30 the hook creates, any sequence of
    [add] calls leaves at most 30 points, exactly the last [min 30 M] of
    the [M] points added, oldest first; the capacity never changes. *)
Theorem buffer_keeps_last_30 (A : Type) (l : list A) :
  let b := fold_left add l (newDataBuffer 30) in
  maxSize b = 30%nat /\
  (length (data b) <= 30)%nat /\
  length (data b) = Nat.min 30 (length l) /\
  data b = skipn (length l - 30) l.
Proof.
  cbv zeta. unfold newDataBuffer.
  pose proof (fold_add_maxSize l (mkDataBuffer 30 [])) as Hm.
  pose proof (fold_add_data 30 l) as Hd.
  rewrite Hd, length_skipn. cbn in Hm.
  split; [exact Hm|]. split; [lia|]. split; [lia | reflexivity].
Qed.

(** C7, refuted at window 0: [slice(-0)] is [slice(0)], the whole buffer,
    where the most recent 0 entries are none: on the buffer [1; 2; 3] the
    mean is 2, not the 0 of an empty window. *)
Lemma getStats_window_zero_counterexample :
  map (fun v : R => v) (skipn (length [1; 2; 3] - Z.to_nat 0) [1; 2; 3]) = [] /\
  mean (getStats (mkDataBuffer 30%nat [1; 2; 3]) (fun v : R => v) 0) = 2.
Proof. split; [reflexivity|]. cbn. field. Qed.

(** C7 (as amended, windows of at least one entry): [getStats] takes the
    [w] most recent entries (all if fewer), maps the key over them and
    drops NaN (no value is NaN in exact arithmetic); no value gives zero
    statistics, otherwise the mean, the population standard deviation,
    and a maximum and minimum that are values of the window.  [getStats]
    returns a new record and leaves the buffer as it is. *)
Theorem getStats_window (A : Type) (b : DataBuffer A) (key : A -> R) (w : Z) :
  (1 <= w)%Z ->
  let vals := map key (skipn (length (data b) - Z.to_nat w) (data b)) in
  let s := getStats b key w in
  (vals = [] -> s = mkStats 0 0 0 0) /\
  (vals <> [] ->
     mean s = fold_right Rplus 0 vals / INR (length vals) /\
     std s = sqrt (fold_right Rplus 0 (map (fun v => (v - mean s) ^ 2) vals) /
                   INR (length vals)) /\
     In (max s) vals /\ Forall (fun v => v <= max s) vals /\
     In (min s) vals /\ Forall (fun v => min s <= v) vals).
Proof.
  intros Hw. cbv zeta. unfold getStats.
  rewrite slice_from_window by exact Hw. rewrite filter_notNaN_R.
  destruct (map key (skipn (length (data b) - Z.to_nat w) (data b))) as [|v vs].
  - split; [intros _; cbn; f_equal; field | intros H; contradiction].
  - split; [intros H; discriminate|]. intros _.
    cbn [mean std max min max_list min_list].
    rewrite !sum_R, !jlit_length.
    destruct (fold_Rmax vs v) as [Hx Hxs]. destruct (fold_Rmin vs v) as [Hn Hns].
    split; [reflexivity|].
    split; [|repeat split; assumption].
    destruct vs as [|v' vs].
    + cbn. replace (0 / 1) with (sqrt 0) by (rewrite sqrt_0; field).
      f_equal. field.
    + reflexivity.
Qed.

(** Witness of C7: a window of 10 on a buffer of 3 entries uses all 3. *)
Lemma getStats_window_witness :
  (1 <= 10)%Z /\
  mean (getStats (mkDataBuffer 30%nat [1; 2; 3]) (fun v : R => v) 10) =
    fold_right Rplus 0 [1; 2; 3] / INR 3.
Proof.
  assert (Hw : (1 <= 10)%Z) by lia.
  split; [exact Hw|].
  exact (proj1 (proj2 (getStats_window R (mkDataBuffer 30%nat [1; 2; 3])
                         (fun v => v) 10 Hw) ltac:(cbn; discriminate))).
Defined.

(** C8: [getElevation] always settles on an elevation and a tag: a cache
    hit gives the cached value; while a request is in flight, the last
    elevation, or else the sample's altitude (or 0), at once and with no
    new request; otherwise it marks a request in flight and awaits
    [fetchElevation], whose outcome (a number, or [null] on an HTTP error,
    an exception or the 3 s abort) resumes it: a number is the elevation,
    [null] falls back to the sample's altitude, else the last elevation,
    else 0; the request is no longer in flight afterwards. *)
Theorem getElevation_total {N : Type} `{JSNum N} (Key : Type)
    (key_eqb : Key -> Key -> bool) (cacheKey : N -> N -> Key)
    (st : State Key N) (latitude longitude : N) (gpsAltitude : option N) :
  let k := cacheKey latitude longitude in
  match getElevation Key key_eqb cacheKey st latitude longitude gpsAltitude with
  | (Resolved e src, st1) =>
      st1 = st /\
      ((cache_get Key key_eqb k (elevationCacheRef st) = Some e /\ src = SrcCache) \/
       (cache_get Key key_eqb k (elevationCacheRef st) = None /\
        pendingElevationRef st = true /\
        ((lastElevationRef st = Some e /\ src = SrcPending) \/
         (lastElevationRef st = None /\ src = SrcGps /\
          e = match gpsAltitude with
              | Some a => if jtruthy a then a else jlit 0 1
              | None => jlit 0 1
              end))))
  | (Fetching _ _ resume, st1) =>
      cache_get Key key_eqb k (elevationCacheRef st) = None /\
      pendingElevationRef st = false /\ pendingElevationRef st1 = true /\
      forall (outcome : option N) (st2 : State Key N),
        let '((e, src), st3) := resume outcome st2 in
        pendingElevationRef st3 = false /\
        match outcome with
        | Some v => e = v /\ src = SrcApi
        | None =>
            (gpsAltitude = Some e /\ src = SrcGps) \/
            (gpsAltitude = None /\ lastElevationRef st2 = Some e /\ src = SrcLast) \/
            (gpsAltitude = None /\ lastElevationRef st2 = None /\
             e = jlit 0 1 /\ src = SrcDefault)
        end
  end.
Proof.
  cbv zeta. unfold getElevation.
  destruct (cache_get Key key_eqb (cacheKey latitude longitude) (elevationCacheRef st))
    as [v|] eqn:Ec.
  { split; [reflexivity | left; split; reflexivity]. }
  destruct (pendingElevationRef st) eqn:Ep.
  { destruct (lastElevationRef st) as [e|] eqn:El.
    - split; [reflexivity | right; split; [reflexivity | split; [reflexivity|]]].
      left; split; reflexivity.
    - split; [reflexivity | right; split; [reflexivity | split; [reflexivity|]]].
      right; split; [reflexivity | split; reflexivity]. }
  split; [reflexivity|]. split; [reflexivity|]. split; [reflexivity|].
  intros outcome st2. unfold resumeElevation.
  destruct outcome as [v|].
  - cbn. split; [reflexivity | split; reflexivity].
  - destruct gpsAltitude as [a|].
    + cbn. split; [reflexivity | left; split; reflexivity].
    + cbn. destruct (lastElevationRef st2) as [e|] eqn:El.
      * split; [reflexivity | right; left; repeat split; assumption].
      * split; [reflexivity | right; right; repeat split; assumption].
Qed.


(** * Further properties of the code *)

(** ** Helpers for the buffer and the statistics *)

Section MoreBufferFacts.
Context {A : Type}.

Lemma length_tl (l : list A) : length (tl l) = (length l - 1)%nat.
Proof. destruct l; cbn; lia. Qed.

Lemma skipn_min_length (k : nat) (l : list A) :
  skipn (Nat.min k (length l)) l = skipn k l.
Proof.
  destruct (Nat.le_ge_cases k (length l)) as [Hk|Hk].
  - rewrite Nat.min_l by exact Hk. reflexivity.
  - rewrite Nat.min_r by exact Hk. rewrite !skipn_all2 by lia. reflexivity.
Qed.

Lemma slice_from_nonneg (s : Z) (l : list A) :
  (0 <= s)%Z -> slice_from s l = skipn (Z.to_nat s) l.
Proof.
  intros Hs. unfold slice_from.
  destruct (Z.ltb_spec s 0) as [|_]; [lia|].
  rewrite <- (skipn_min_length (Z.to_nat s)). f_equal. lia.
Qed.

Lemma add_suffix (b : DataBuffer A) (p : A) :
  exists k, data (add b p) = skipn k (data b ++ [p]).
Proof.
  unfold add. destruct (Nat.ltb _ _); cbn [data].
  - exists 1%nat. destruct (data b ++ [p]); reflexivity.
  - exists 0%nat. reflexivity.
Qed.

Lemma getLast_snoc (b : DataBuffer A) (p : A) :
  getLast b = Some p -> exists xs, data b = xs ++ [p].
Proof.
  unfold getLast. generalize (data b) as l. intros l H.
  destruct l as [|x xs] using rev_ind; [discriminate|].
  rewrite map_app in H. cbn [map] in H. rewrite last_last in H.
  injection H as ->. now exists xs.
Qed.
End MoreBufferFacts.

Section MoreStatsFacts.
Local Open Scope R_scope.



(** The shape of [getStats] over R on a non-empty window. *)
Lemma getStats_cons {B : Type} (b : DataBuffer B) (key : B -> R) (w : Z) v vs :
  map key (slice_from (- w) (data b)) = v :: vs ->
  let s := getStats b key w in
  mean s = fold_right Rplus 0 (v :: vs) / INR (length (v :: vs)) /\
  0 <= std s /\
  max s = fold_left Rmax vs v /\ min s = fold_left Rmin vs v.
Proof.
  intros E. cbv zeta. unfold getStats. rewrite filter_notNaN_R, E.
  cbn [mean std max min max_list min_list].
  rewrite sum_R, jlit_length.
  split; [reflexivity|]. split; [|split; reflexivity].
  destruct (Nat.ltb _ _); [apply sqrt_pos | cbn; lra].
Qed.

Lemma getStats_nil {B : Type} (b : DataBuffer B) (key : B -> R) (w : Z) :
  map key (slice_from (- w) (data b)) = [] ->
  getStats b key w = mkStats 0 0 0 0.
Proof.
  intros E. unfold getStats. rewrite filter_notNaN_R, E. cbn. f_equal; field.
Qed.

End MoreStatsFacts.

(** ** Helpers of the hook *)

(** X1: [getLastN(n)] returns the [n] most recent entries (all when there
    are fewer), a suffix of the buffer; [getLastN(0)] returns the whole
    buffer, and a negative [n] drops the [|n|] oldest entries instead. *)
Theorem getLastN_window {A : Type} (b : DataBuffer A) :
  (forall n : Z, (1 <= n)%Z ->
     length (getLastN b n) = Nat.min (Z.to_nat n) (length (data b)) /\
     exists older, data b = older ++ getLastN b n) /\
  getLastN b 0 = data b /\
  (forall n : Z, (n < 0)%Z -> getLastN b n = skipn (Z.to_nat (- n)) (data b)).
Proof.
  unfold getLastN. split; [|split].
  - intros n Hn. rewrite slice_from_window by exact Hn.
    split; [rewrite length_skipn; lia|].
    exists (firstn (length (data b) - Z.to_nat n) (data b)).
    symmetry. apply firstn_skipn.
  - rewrite slice_from_nonneg by lia. reflexivity.
  - intros n Hn. rewrite slice_from_nonneg by lia. reflexivity.
Qed.

(** X2: whatever the window, [getStats] returns [min <= max] and a
    standard deviation that is not negative. *)
Theorem getStats_ordered {A : Type} (b : DataBuffer A) (key : A -> R) (w : Z) :
  let s := getStats b key w in
  min s <= max s /\ 0 <= std s.
Proof.
  cbv zeta.
  destruct (map key (slice_from (- w) (data b))) as [|v vs] eqn:E.
  - rewrite (getStats_nil b key w E). cbn. lra.
  - destruct (getStats_cons b key w v vs E) as (Hm & Hs & Hx & Hn).
    rewrite Hx, Hn. split; [|exact Hs].
    pose proof (Forall_inv (proj2 (fold_Rmin vs v))).
    pose proof (Forall_inv (proj2 (fold_Rmax vs v))). cbv beta in *. lra.
Qed.

(** X3: [add] keeps the capacity and never takes the buffer past it; the
    buffer after [add] is a suffix of the old entries followed by the new
    one, which [getLast] returns when the capacity is at least 1; after
    [clear], [getLast] returns null. *)
Theorem buffer_add_invariants {A : Type} (b : DataBuffer A) (p : A) :
  maxSize (add b p) = maxSize b /\
  ((length (data b) <= maxSize b)%nat -> (length (data (add b p)) <= maxSize b)%nat) /\
  (exists k, data (add b p) = skipn k (data b ++ [p])) /\
  ((0 < maxSize b)%nat -> getLast (add b p) = Some p) /\
  getLast (clear b) = None /\ maxSize (clear b) = maxSize b.
Proof.
  split; [apply add_maxSize|].
  split.
  { intros Hl. unfold add.
    destruct (Nat.ltb_spec (maxSize b) (length (data b ++ [p]))); cbn [data maxSize].
    - rewrite length_tl, length_app. cbn [length] in *. lia.
    - lia. }
  split; [apply add_suffix|].
  split; [apply getLast_add|].
  split; reflexivity.
Qed.

(** X4: the haversine distance of a point to itself is 0, and the
    distance is symmetric in its two points. *)
Theorem haversine_metric (lat1 lon1 lat2 lon2 : R) :
  RealModel.haversineDistance lat1 lon1 lat1 lon1 = 0 /\
  RealModel.haversineDistance lat1 lon1 lat2 lon2 =
    RealModel.haversineDistance lat2 lon2 lat1 lon1.
Proof.
  split.
  - unfold RealModel.haversineDistance. cbv zeta.
    rewrite !Rminus_diag.
    replace (0 * PI / 180 / 2) with 0 by field. rewrite sin_0.
    match goal with |- context [sqrt ?a] => replace a with 0 by ring end.
    rewrite Rminus_0_r, sqrt_0, sqrt_1.
    unfold RealModel.atan2. destruct (Rlt_dec 0 1); [|lra].
    rewrite Rdiv_0_l, atan_0. ring.
  - unfold RealModel.haversineDistance. cbv zeta.
    replace ((lat1 - lat2) * PI / 180 / 2) with (- ((lat2 - lat1) * PI / 180 / 2)) by field.
    replace ((lon1 - lon2) * PI / 180 / 2) with (- ((lon2 - lon1) * PI / 180 / 2)) by field.
    rewrite !sin_neg.
    match goal with
    | |- _ = _ * (2 * RealModel.atan2 (sqrt ?a) (sqrt (1 - ?a))) =>
      match goal with
      | |- _ * (2 * RealModel.atan2 (sqrt ?b) (sqrt (1 - ?b))) = _ =>
        replace a with b by ring; reflexivity
      end
    end.
Qed.

(** X5: each of [getSpeedRegime], [getSlopeCategory] and [getTempCategory]
    is monotone in its input, with values in [0, 3], [0, 4] and [0, 4]. *)
Theorem categories_monotone :
  (forall x y : R, x <= y -> getSpeedRegime x <= getSpeedRegime y) /\
  (forall x : R, 0 <= getSpeedRegime x <= 3) /\
  (forall x y : R, x <= y -> getSlopeCategory x <= getSlopeCategory y) /\
  (forall x : R, 0 <= getSlopeCategory x <= 4) /\
  (forall x y : R, x <= y -> getTempCategory x <= getTempCategory y) /\
  (forall x : R, 0 <= getTempCategory x <= 4).
Proof.
  unfold getSpeedRegime, getSlopeCategory, getTempCategory, jle.
  split; [intros x y Hxy; cbn; rcases; cbn [negb andb orb]; lra|].
  split; [intros x; cbn; rcases; cbn [negb andb orb]; split; lra|].
  split; [intros x y Hxy; cbn; rcases; cbn [negb andb orb]; lra|].
  split; [intros x; cbn; rcases; cbn [negb andb orb]; split; lra|].
  split; [intros x y Hxy; cbn; rcases; cbn [negb andb orb]; lra|].
  intros x; cbn; rcases; cbn [negb andb orb]; split; lra.
Qed.

(** ** The elevation cache *)

Section CacheFacts.
Context {N : Type} `{JSNum N}.
Variable Key : Type.
Variable key_eqb : Key -> Key -> bool.
Hypothesis key_eqb_eq : forall a b, key_eqb a b = true <-> a = b.
Variable cacheKey : N -> N -> Key.

Lemma cache_get_none_existsb (k : Key) (c : list (Key * N)) :
  cache_get Key key_eqb k c = None -> existsb (fun e => key_eqb (fst e) k) c = false.
Proof.
  unfold cache_get. induction c as [|[k' v] c IH]; cbn; [reflexivity|].
  destruct (key_eqb k' k); [discriminate | exact IH].
Qed.

Lemma cache_get_snoc (k : Key) (v : N) (c : list (Key * N)) :
  cache_get Key key_eqb k c = None -> cache_get Key key_eqb k (c ++ [(k, v)]) = Some v.
Proof.
  unfold cache_get. induction c as [|[k' v'] c IH]; cbn.
  - rewrite (proj2 (key_eqb_eq k k) eq_refl). reflexivity.
  - destruct (key_eqb k' k); [discriminate | exact IH].
Qed.

Lemma cache_get_delete (k k0 : Key) (c : list (Key * N)) :
  key_eqb k0 k = false ->
  cache_get Key key_eqb k (cache_delete Key key_eqb k0 c) = cache_get Key key_eqb k c.
Proof.
  intros Hk. unfold cache_get, cache_delete.
  induction c as [|[k' v'] c IH]; cbn; [reflexivity|].
  destruct (key_eqb k' k0) eqn:E0; cbn.
  - apply key_eqb_eq in E0. subst k'. rewrite Hk. exact IH.
  - destruct (key_eqb k' k); [reflexivity | exact IH].
Qed.

Lemma length_filter_le {B : Type} (f : B -> bool) (l : list B) :
  (length (filter f l) <= length l)%nat.
Proof. induction l as [|x l IH]; cbn; [lia|]. destruct (f x); cbn; lia. Qed.

Lemma length_delete_head (k0 : Key) (v0 : N) (c : list (Key * N)) :
  (length (cache_delete Key key_eqb k0 ((k0, v0) :: c)) <= length c)%nat.
Proof.
  unfold cache_delete. cbn. rewrite (proj2 (key_eqb_eq k0 k0) eq_refl). cbn.
  apply length_filter_le.
Qed.

Lemma length_cache_set (k : Key) (v : N) (c : list (Key * N)) :
  (length (cache_set Key key_eqb k v c) <= S (length c))%nat.
Proof.
  unfold cache_set. destruct (existsb _ _).
  - rewrite length_map. lia.
  - rewrite length_app. cbn. lia.
Qed.

Lemma resume_cache_bound (kstr : Key) (gps api : option N) (st : State Key N) :
  (length (elevationCacheRef st) <= 200)%nat ->
  (length (elevationCacheRef (snd (resumeElevation Key key_eqb kstr gps api st))) <= 200)%nat.
Proof.
  intros Hc. unfold resumeElevation. destruct api as [e|].
  - cbn -[cache_set cache_delete Nat.ltb].
    pose proof (length_cache_set kstr e (elevationCacheRef st)) as Hl.
    destruct (cache_set Key key_eqb kstr e (elevationCacheRef st)) as [|[k0 v0] c'].
    + cbn. lia.
    + cbn [length] in Hl |- *.
      destruct (Nat.ltb_spec 200 (S (length c'))); cbn [elevationCacheRef with_elevation].
      * pose proof (length_delete_head k0 v0 c'). lia.
      * cbn. lia.
  - destruct gps; [cbn; exact Hc|]. destruct (lastElevationRef _); cbn; exact Hc.
Qed.

Lemma resolve_cache_bound (st : State Key N) la lo g a :
  (length (elevationCacheRef st) <= 200)%nat ->
  (length (elevationCacheRef (snd (resolveElevation Key key_eqb cacheKey st la lo g a))) <= 200)%nat.
Proof.
  intros Hc. unfold resolveElevation, getElevation.
  destruct (cache_get _ _ _ _); [cbn; exact Hc|].
  destruct (pendingElevationRef st); [destruct (lastElevationRef st); cbn; exact Hc|].
  cbn -[resumeElevation].
  pose proof (resume_cache_bound (cacheKey la lo) g a
                (with_elevation Key st (elevationCacheRef st) true) Hc) as Hr.
  destruct (resumeElevation _ _ _ _ _ _) as [[e src] st2]. exact Hr.
Qed.

Lemma resolve_pending (st : State Key N) la lo g a :
  pendingElevationRef st = false ->
  let '(_, src, st1) := resolveElevation Key key_eqb cacheKey st la lo g a in
  pendingElevationRef st1 = false /\ src <> SrcPending.
Proof.
  intros Hp. unfold resolveElevation, getElevation.
  destruct (cache_get _ _ _ _); [split; [exact Hp | discriminate]|].
  rewrite Hp. cbn. unfold resumeElevation.
  destruct a as [e|]; cbn.
  - split; [reflexivity | discriminate].
  - destruct g; [cbn; split; [reflexivity | discriminate]|].
    destruct (lastElevationRef st); cbn; (split; [reflexivity | discriminate]).
Qed.

Lemma resolve_miss_api (st : State Key N) la lo g (e : N) :
  cache_get Key key_eqb (cacheKey la lo) (elevationCacheRef st) = None ->
  pendingElevationRef st = false ->
  let '(e', src, st1) := resolveElevation Key key_eqb cacheKey st la lo g (Some e) in
  e' = e /\ src = SrcApi /\
  cache_get Key key_eqb (cacheKey la lo) (elevationCacheRef st1) = Some e.
Proof.
  intros Hc Hp. unfold resolveElevation, getElevation. rewrite Hc, Hp.
  cbn -[cache_set cache_delete cache_get Nat.ltb]. unfold cache_set.
  rewrite (cache_get_none_existsb _ _ Hc).
  split; [reflexivity|]. split; [reflexivity|].
  destruct (elevationCacheRef st) as [|[k0 v0] c'] eqn:Ec.
  - cbn. apply (cache_get_snoc _ e []). reflexivity.
  - assert (Hk : key_eqb k0 (cacheKey la lo) = false).
    { unfold cache_get in Hc. cbn in Hc.
      destruct (key_eqb k0 (cacheKey la lo)); [discriminate | reflexivity]. }
    cbn [app].
    match goal with |- context [Nat.ltb ?a ?b] => destruct (Nat.ltb a b) end;
      cbn [elevationCacheRef with_elevation].
    + rewrite (cache_get_delete _ _ _ Hk).
      apply (cache_get_snoc _ e ((k0, v0) :: c')). exact Hc.
    + apply (cache_get_snoc _ e ((k0, v0) :: c')). exact Hc.
Qed.

Lemma resolve_hit (st : State Key N) la lo g a (v : N) :
  cache_get Key key_eqb (cacheKey la lo) (elevationCacheRef st) = Some v ->
  resolveElevation Key key_eqb cacheKey st la lo g a = (v, SrcCache, st).
Proof. intros Hc. unfold resolveElevation, getElevation. rewrite Hc. reflexivity. Qed.
End CacheFacts.

Lemma fixedKey_eqb_eq (a b : RealModel.FixedKey) :
  RealModel.fixedKey_eqb a b = true <-> a = b.
Proof.
  destruct a as [s1 n1|x1], b as [s2 n2|x2]; cbn; split; intros Hab;
    try discriminate.
  - apply andb_true_iff in Hab. destruct Hab as [Hs Hn].
    apply Bool.eqb_prop in Hs. apply Z.eqb_eq in Hn. subst. reflexivity.
  - injection Hab as <- <-. rewrite Bool.eqb_reflx, Z.eqb_refl. reflexivity.
  - unfold Real.reqb in Hab. destruct (Req_dec_T x1 x2); [subst; reflexivity | discriminate].
  - injection Hab as <-. unfold Real.reqb. destruct (Req_dec_T x1 x1); [reflexivity | contradiction].
Qed.

Lemma key_eqb_eq (a b : RealModel.Key) : RealModel.key_eqb a b = true <-> a = b.
Proof.
  destruct a as [a1 a2], b as [b1 b2]. unfold RealModel.key_eqb. cbn.
  rewrite andb_true_iff, !fixedKey_eqb_eq. split.
  - intros [-> ->]. reflexivity.
  - intros E. injection E as -> ->. split; reflexivity.
Qed.

(** One call: the refs the elevation lookup leaves, and the elevation
    difference. *)
Lemma calculateFeatures_refs (st : State RealModel.Key R) sd api :
  let '(e, src, st1) := RealModel.resolveElevation st (sd_latitude sd) (sd_longitude sd)
                          (sd_gpsAltitude sd) api in
  let '(f, src', st') := RealModel.calculateFeatures st sd api in
  src' = src /\ elevationCacheRef st' = elevationCacheRef st1 /\
  pendingElevationRef st' = pendingElevationRef st1 /\
  lastElevationRef st' = Some e /\
  lastElevationRef st1 = lastElevationRef st /\
  elevation_diff f = e - match lastElevationRef st with Some x => x | None => e end.
Proof.
  unfold RealModel.calculateFeatures, calculateFeatures, RealModel.resolveElevation.
  open_call. cbn. rewrite Hlast. repeat split; reflexivity.
Qed.

(** One call: the point pushed into the buffer and the rolling statistics. *)
Lemma calculateFeatures_buffer (st : State RealModel.Key R) sd api :
  let '(f, _, st') := RealModel.calculateFeatures st sd api in
  exists p, bufferRef st' = add (bufferRef st) p /\
    pt_speed p = sd_speed sd /\ pt_acceleration p = acceleration f /\
    pt_slope p = slope f /\ speed_kmh f = sd_speed sd /\
    speed_roll_mean_10 f = mean (getStats (bufferRef st') (@pt_speed R) 10) /\
    speed_roll_max_10 f = max (getStats (bufferRef st') (@pt_speed R) 10) /\
    speed_roll_min_10 f = min (getStats (bufferRef st') (@pt_speed R) 10) /\
    accel_roll_mean_5 f = mean (getStats (bufferRef st') (@pt_acceleration R) 5) /\
    slope_roll_mean_20 f = mean (getStats (bufferRef st') (@pt_slope R) 20).
Proof.
  unfold RealModel.calculateFeatures, calculateFeatures.
  open_call. cbn -[add getStats].
  eexists; repeat split; reflexivity.
Qed.


(** One call: the trip start time and the state of charge. *)
Lemma calculateFeatures_trip (st : State RealModel.Key R) sd api :
  let '(f, _, st') := RealModel.calculateFeatures st sd api in
  startTime (tripStateRef st') =
    match startTime (tripStateRef st) with
    | None => Some (sd_timestamp sd)
    | Some t => Some t
    end /\
  lastSoc (tripStateRef st') = sd_soc sd /\
  soc_delta f = sd_soc sd - lastSoc (tripStateRef st).
Proof.
  unfold RealModel.calculateFeatures, calculateFeatures.
  open_call. cbn.
  destruct (startTime (tripStateRef st)); rcases; repeat split; reflexivity.
Qed.

Lemma getStats_last_bracket {A : Type} (b : DataBuffer A) (key : A -> R) (w : Z) (p : A) :
  (1 <= w)%Z -> getLast b = Some p ->
  min (getStats b key w) <= key p <= max (getStats b key w).
Proof.
  intros Hw Hl. destruct (getLast_snoc b p Hl) as [xs Hxs].
  assert (Hin : In (key p) (map key (slice_from (- w) (data b)))).
  { apply in_map. rewrite slice_from_window by exact Hw. rewrite Hxs.
    rewrite skipn_app. apply in_or_app. right.
    rewrite length_app. cbn [length].
    replace (length xs + 1 - Z.to_nat w - length xs)%nat with 0%nat by lia.
    now left. }
  destruct (map key (slice_from (- w) (data b))) as [|v vs] eqn:E; [destruct Hin|].
  destruct (getStats_cons b key w v vs E) as (_ & _ & -> & ->).
  split.
  - exact (proj1 (Forall_forall _ _) (proj2 (fold_Rmin vs v)) _ Hin).
  - exact (proj1 (Forall_forall _ _) (proj2 (fold_Rmax vs v)) _ Hin).
Qed.


Lemma run_soc_delta (ticks : list (SensorData R * option R)) :
  forall st : State RealModel.Key R,
  map (@soc_delta R) (fst (RealModel.run st ticks)) =
  map (fun '(s, prev) => s - prev)
    (combine (map (fun t => sd_soc (fst t)) ticks)
             (lastSoc (tripStateRef st) :: map (fun t => sd_soc (fst t)) ticks)).
Proof.
  induction ticks as [|[sd api] rest IH]; intros st; [reflexivity|].
  rewrite run_features_cons. cbn [map fst combine].
  pose proof (calculateFeatures_trip st sd api) as Ht.
  pose proof (IH (snd (RealModel.calculateFeatures st sd api))) as IH'.
  destruct (RealModel.calculateFeatures st sd api) as [[f src] st'].
  cbn [fst snd] in *. destruct Ht as (_ & Hl & Hd). rewrite IH', Hd, Hl. reflexivity.
Qed.

Lemma run_start_time (t : R) (ticks : list (SensorData R * option R))
    (st : State RealModel.Key R) :
  startTime (tripStateRef st) = Some t ->
  startTime (tripStateRef (snd (RealModel.run st ticks))) = Some t.
Proof.
  intros Hs.
  destruct (run_preserves (fun st => startTime (tripStateRef st) = Some t)
              (fun _ => True) (fun _ => True)) with (ticks := ticks) (st := st)
    as [H _]; [| exact Hs | apply Forall_forall; intros; exact I | exact H].
  intros st1 sd api Hs1 _. split; [|exact I].
  pose proof (calculateFeatures_trip st1 sd api) as Ht.
  destruct (RealModel.calculateFeatures st1 sd api) as [[f src] st'].
  cbn [snd]. destruct Ht as (Ht & _). rewrite Ht, Hs1. reflexivity.
Qed.

(** ** The hook *)

(** X7: a call keeps the elevation cache at no more than 200 entries:
    a new entry beyond 200 evicts the oldest key; so from [reset] the
    cache never holds more than 200 entries. *)
Theorem elevation_cache_bounded :
  (forall (st : State RealModel.Key R) sd api,
     (length (elevationCacheRef st) <= 200)%nat ->
     (length (elevationCacheRef (snd (RealModel.calculateFeatures st sd api))) <= 200)%nat) /\
  (forall (st0 : State RealModel.Key R) soc ticks,
     (length (elevationCacheRef (snd (RealModel.run (RealModel.reset st0 soc) ticks))) <= 200)%nat).
Proof.
  assert (Hstep : forall (st : State RealModel.Key R) sd api,
     (length (elevationCacheRef st) <= 200)%nat ->
     (length (elevationCacheRef (snd (RealModel.calculateFeatures st sd api))) <= 200)%nat).
  { intros st sd api Hc.
    pose proof (calculateFeatures_refs st sd api) as Hr.
    pose proof (resolve_cache_bound RealModel.Key RealModel.key_eqb key_eqb_eq
                  RealModel.cacheKey st (sd_latitude sd) (sd_longitude sd)
                  (sd_gpsAltitude sd) api Hc) as Hb.
    unfold RealModel.resolveElevation in Hr.
    destruct (resolveElevation RealModel.Key RealModel.key_eqb RealModel.cacheKey st
                (sd_latitude sd) (sd_longitude sd) (sd_gpsAltitude sd) api)
      as [[e src] st1].
    destruct (RealModel.calculateFeatures st sd api) as [[f src'] st'].
    cbn [snd] in Hb |- *. destruct Hr as (_ & -> & _). exact Hb. }
  split; [exact Hstep|].
  intros st0 soc ticks.
  destruct (run_preserves (fun st => (length (elevationCacheRef st) <= 200)%nat)
              (fun _ => True) (fun _ => True)) with (ticks := ticks) (st := RealModel.reset st0 soc)
    as [H _]; [| cbn; lia | apply Forall_forall; intros; exact I | exact H].
  intros st sd api Hc _. split; [apply Hstep; exact Hc | exact I].
Qed.

(** X8: a position looked up once is served from the cache: when a call
    misses the cache with no request in flight and [fetchElevation]
    returns [e], the next call at the same coordinates takes [e] from the
    cache, leaves the cache as it is, and has an elevation difference 0. *)
Theorem elevation_cache_round_trip (st : State RealModel.Key R) (sd sd' : SensorData R)
    (e : R) (api' : option R) :
  cache_get RealModel.Key RealModel.key_eqb
    (RealModel.cacheKey (sd_latitude sd) (sd_longitude sd)) (elevationCacheRef st) = None ->
  pendingElevationRef st = false ->
  sd_latitude sd' = sd_latitude sd -> sd_longitude sd' = sd_longitude sd ->
  let '(_, src1, st1) := RealModel.calculateFeatures st sd (Some e) in
  let '(f2, src2, st2) := RealModel.calculateFeatures st1 sd' api' in
  src1 = SrcApi /\ src2 = SrcCache /\ elevation_diff f2 = 0 /\
  lastElevationRef st2 = Some e /\ elevationCacheRef st2 = elevationCacheRef st1.
Proof.
  intros Hc Hp Hla Hlo.
  pose proof (resolve_miss_api RealModel.Key RealModel.key_eqb key_eqb_eq
                RealModel.cacheKey st (sd_latitude sd) (sd_longitude sd)
                (sd_gpsAltitude sd) e Hc Hp) as Hm.
  pose proof (calculateFeatures_refs st sd (Some e)) as R1.
  unfold RealModel.resolveElevation in R1.
  destruct (resolveElevation RealModel.Key RealModel.key_eqb RealModel.cacheKey st
              (sd_latitude sd) (sd_longitude sd) (sd_gpsAltitude sd) (Some e))
    as [[e1 s1] st1'].
  destruct Hm as (-> & -> & Hget).
  destruct (RealModel.calculateFeatures st sd (Some e)) as [[f1 src1] st1].
  destruct R1 as (-> & Hc1 & _ & Hl1 & _).
  assert (Hhit : cache_get RealModel.Key RealModel.key_eqb
                   (RealModel.cacheKey (sd_latitude sd') (sd_longitude sd'))
                   (elevationCacheRef st1) = Some e) by (rewrite Hla, Hlo, Hc1; exact Hget).
  pose proof (calculateFeatures_refs st1 sd' api') as R2.
  unfold RealModel.resolveElevation in R2.
  rewrite (resolve_hit RealModel.Key RealModel.key_eqb RealModel.cacheKey st1
             (sd_latitude sd') (sd_longitude sd') (sd_gpsAltitude sd') api' e Hhit) in R2.
  destruct (RealModel.calculateFeatures st1 sd' api') as [[f2 src2] st2].
  destruct R2 as (-> & Hc2 & _ & Hl2 & _ & Hd).
  rewrite Hl1 in Hd.
  repeat split; try assumption; try reflexivity.
  rewrite Hd. ring.
Qed.

(** Witness of X8: after a reset, a sample at 45 N 7 E fetched at 250 m,
    then a second sample at the same position one second later. *)
Lemma elevation_cache_round_trip_witness :
  cache_get RealModel.Key RealModel.key_eqb
    (RealModel.cacheKey (sd_latitude (Observe.sample 50 45 7 0))
                        (sd_longitude (Observe.sample 50 45 7 0)))
    (elevationCacheRef Observe.fresh) = None /\
  pendingElevationRef Observe.fresh = false /\
  elevation_diff (fst (fst (RealModel.calculateFeatures
    (snd (RealModel.calculateFeatures Observe.fresh (Observe.sample 50 45 7 0) (Some 250)))
    (Observe.sample 50 45 7 1) None))) = 0.
Proof.
  assert (Hc : cache_get RealModel.Key RealModel.key_eqb
    (RealModel.cacheKey (sd_latitude (Observe.sample 50 45 7 0))
                        (sd_longitude (Observe.sample 50 45 7 0)))
    (elevationCacheRef Observe.fresh) = None) by reflexivity.
  assert (Hp : pendingElevationRef Observe.fresh = false) by reflexivity.
  split; [exact Hc|]. split; [exact Hp|].
  pose proof (elevation_cache_round_trip Observe.fresh (Observe.sample 50 45 7 0)
                (Observe.sample 50 45 7 1) 250 None Hc Hp eq_refl eq_refl) as H.
  destruct (RealModel.calculateFeatures Observe.fresh (Observe.sample 50 45 7 0) (Some 250))
    as [[f1 s1] st1].
  cbn [snd].
  destruct (RealModel.calculateFeatures st1 (Observe.sample 50 45 7 1) None) as [[f2 s2] st2].
  exact (proj1 (proj2 (proj2 H))).
Defined.

(** X9: when no elevation request is in flight before a call, none is
    after it and the call never reports the [pending] source; so calls
    serialised from [reset] never see a request in flight. *)
Theorem no_pending_when_serialised :
  (forall (st : State RealModel.Key R) sd api,
     pendingElevationRef st = false ->
     let '(_, src, st') := RealModel.calculateFeatures st sd api in
     pendingElevationRef st' = false /\ src <> SrcPending) /\
  (forall (st0 : State RealModel.Key R) soc ticks,
     pendingElevationRef (snd (RealModel.run (RealModel.reset st0 soc) ticks)) = false).
Proof.
  assert (Hstep : forall (st : State RealModel.Key R) sd api,
     pendingElevationRef st = false ->
     let '(_, src, st') := RealModel.calculateFeatures st sd api in
     pendingElevationRef st' = false /\ src <> SrcPending).
  { intros st sd api Hp.
    pose proof (calculateFeatures_refs st sd api) as Hr.
    pose proof (resolve_pending RealModel.Key RealModel.key_eqb
                  RealModel.cacheKey st (sd_latitude sd) (sd_longitude sd)
                  (sd_gpsAltitude sd) api Hp) as Hb.
    unfold RealModel.resolveElevation in Hr.
    destruct (resolveElevation RealModel.Key RealModel.key_eqb RealModel.cacheKey st
                (sd_latitude sd) (sd_longitude sd) (sd_gpsAltitude sd) api)
      as [[e src] st1].
    destruct (RealModel.calculateFeatures st sd api) as [[f src'] st'].
    destruct Hr as (-> & _ & -> & _). exact Hb. }
  split; [exact Hstep|].
  intros st0 soc ticks.
  destruct (run_preserves (fun st => pendingElevationRef st = false)
              (fun _ => True) (fun _ => True)) with (ticks := ticks) (st := RealModel.reset st0 soc)
    as [H _]; [| reflexivity | apply Forall_forall; intros; exact I | exact H].
  intros st sd api Hp _. split; [|exact I].
  pose proof (Hstep st sd api Hp) as Hs.
  destruct (RealModel.calculateFeatures st sd api) as [[f src] st'].
  exact (proj1 Hs).
Qed.

(** X10: the binary features are 0 or 1; at most one of accelerating,
    braking and coasting is set; coasting needs more than 5 km/h, and
    [regen_potential] a slope below -2 at more than 30 km/h. *)
Theorem driving_flags (st : State RealModel.Key R) sd api :
  let f := fst (fst (RealModel.calculateFeatures st sd api)) in
  (is_accelerating f = 0 \/ is_accelerating f = 1) /\
  (is_braking f = 0 \/ is_braking f = 1) /\
  (is_coasting f = 0 \/ is_coasting f = 1) /\
  (regen_potential f = 0 \/ regen_potential f = 1) /\
  is_accelerating f + is_braking f + is_coasting f <= 1 /\
  (is_coasting f = 1 -> 5 < speed_kmh f) /\
  (regen_potential f = 1 -> slope f < -2 /\ 30 < speed_kmh f).
Proof.
  cbv zeta.
  assert (E : let f := fst (fst (RealModel.calculateFeatures st sd api)) in
    is_accelerating f = (if Real.rltb (jlit 1 10) (acceleration f) then jlit 1 1 else jlit 0 1) /\
    is_braking f = (if Real.rltb (acceleration f) (jlit (-1) 10) then jlit 1 1 else jlit 0 1) /\
    is_coasting f = (if Real.rltb (Rabs (acceleration f)) (jlit 1 10) &&
                        Real.rltb (jlit 5 1) (speed_kmh f) then jlit 1 1 else jlit 0 1) /\
    regen_potential f = (if Real.rltb (slope f) (jlit (-2) 1) &&
                            Real.rltb (jlit 30 1) (speed_kmh f) then jlit 1 1 else jlit 0 1)).
  { unfold RealModel.calculateFeatures, calculateFeatures. open_call. cbn.
    repeat split; reflexivity. }
  cbv zeta in E.
  destruct (fst (fst (RealModel.calculateFeatures st sd api))) as [] eqn:Ef.
  cbn in E |- *. destruct E as (-> & -> & -> & ->).
  pose proof (Rle_abs acceleration0) as Ha1.
  pose proof (Rle_abs (- acceleration0)) as Ha2. rewrite Rabs_Ropp in Ha2.
  rcases; cbn [negb andb orb];
    repeat match goal with
           | |- _ /\ _ => split
           | |- _ \/ _ => first [left; lra | right; lra]
           | |- _ -> _ => intros
           end; lra.
Qed.

(** X11: when the buffer can hold a point, the rolling speed extremes
    of a call bracket its own speed:
    [speed_roll_min_10 <= speed_kmh <= speed_roll_max_10]. *)
Theorem speed_stats_bracket (st : State RealModel.Key R) sd api :
  (0 < maxSize (bufferRef st))%nat ->
  let f := fst (fst (RealModel.calculateFeatures st sd api)) in
  speed_roll_min_10 f <= speed_kmh f <= speed_roll_max_10 f.
Proof.
  intros Hm. cbv zeta.
  pose proof (calculateFeatures_buffer st sd api) as Hb.
  destruct (RealModel.calculateFeatures st sd api) as [[f src] st'].
  cbn [fst]. destruct Hb as (p & Hbuf & Hsp & _ & _ & Hs & _ & Hmax & Hmin & _).
  rewrite Hs, Hmax, Hmin, <- Hsp.
  assert (Hl : getLast (bufferRef st') = Some p) by (rewrite Hbuf; apply getLast_add; exact Hm).
  exact (getStats_last_bracket (bufferRef st') (@pt_speed R) 10 p ltac:(lia) Hl).
Qed.

(** Witness of X11: the first sample after a reset, at 50 km/h. *)
Lemma speed_stats_bracket_witness :
  (0 < maxSize (bufferRef Observe.fresh))%nat /\
  speed_roll_min_10 (fst (fst (RealModel.calculateFeatures Observe.fresh
                                 (Observe.sample 50 45 7 0) None))) <= 50.
Proof.
  assert (Hm : (0 < maxSize (bufferRef Observe.fresh))%nat) by (cbn; lia).
  split; [exact Hm|].
  exact (proj1 (speed_stats_bracket Observe.fresh (Observe.sample 50 45 7 0) None Hm)).
Defined.


(** X13: [reset] clears the trip start time, and the first call after it
    fixes the start time to its timestamp for the rest of the run. *)
Theorem start_time_first_sample (st0 : State RealModel.Key R) soc sd api rest :
  startTime (tripStateRef (RealModel.reset st0 soc)) = None /\
  startTime (tripStateRef (snd (RealModel.run (RealModel.reset st0 soc) ((sd, api) :: rest)))) =
    Some (sd_timestamp sd).
Proof.
  split; [reflexivity|].
  rewrite run_cons. apply run_start_time.
  pose proof (calculateFeatures_trip (RealModel.reset st0 soc) sd api) as Ht.
  destruct (RealModel.calculateFeatures (RealModel.reset st0 soc) sd api) as [[f src] st1].
  cbn [snd]. exact (proj1 Ht).
Qed.

(** X14: over calls serialised from [reset(initialSoc)], the [soc_delta]
    of each call is its state of charge minus that of the call before, the
    first call's minus [initialSoc]. *)
Theorem soc_delta_consecutive (st0 : State RealModel.Key R) (initialSoc : R) ticks :
  let socs := map (fun t => sd_soc (fst t)) ticks in
  map (@soc_delta R) (fst (RealModel.run (RealModel.reset st0 initialSoc) ticks)) =
  map (fun '(s, prev) => s - prev) (combine socs (initialSoc :: socs)).
Proof. cbv zeta. apply (run_soc_delta ticks (RealModel.reset st0 initialSoc)). Qed.

(** ** [usePrediction] *)

Section RoundFacts.
Local Open Scope R_scope.

Lemma up_mono (x y : R) : x <= y -> (up x <= up y)%Z.
Proof.
  intros Hxy. destruct (archimed x) as [A1 A2]. destruct (archimed y) as [B1 B2].
  apply Z.nlt_ge. intros Hlt.
  assert (IZR (up y) + 1 <= IZR (up x)).
  { rewrite <- plus_IZR. apply IZR_le. lia. }
  lra.
Qed.

Lemma math_round_mono (x y : R) :
  x <= y -> Prediction.math_round x <= Prediction.math_round y.
Proof.
  intros Hxy. unfold Prediction.math_round. apply IZR_le.
  pose proof (up_mono (x + / 2) (y + / 2) ltac:(lra)). lia.
Qed.

Lemma math_round_IZR (z : Z) : Prediction.math_round (IZR z) = IZR z.
Proof.
  unfold Prediction.math_round.
  rewrite <- (tech_up (IZR z + / 2) (z + 1)).
  - f_equal. lia.
  - rewrite plus_IZR. lra.
  - rewrite plus_IZR. lra.
Qed.


Lemma round_ge (z : Z) (x : R) : IZR z <= x -> IZR z <= Prediction.math_round x.
Proof. intros H. rewrite <- (math_round_IZR z). apply math_round_mono. exact H. Qed.

Lemma round_le (z : Z) (x : R) : x <= IZR z -> Prediction.math_round x <= IZR z.
Proof. intros H. rewrite <- (math_round_IZR z). apply math_round_mono. exact H. Qed.

End RoundFacts.

Ltac conj_lra :=
  repeat match goal with
         | |- _ /\ _ => split
         | |- _ \/ _ => first [left; lra | right; lra]
         | |- _ -> _ => intros
         end; lra.

(** X15: [predictLocal] returns null without features; otherwise its
    optimal speed is an integer-rounded value in [5, 95] km/h, at most 70
    on a slope above 5 % or below 20 % state of charge, at most 85 on a
    slope above 2 %, and 95 above 110 km/h on a slope of at most 2 % with
    at least 20 % charge. *)
Theorem optimal_speed_bounds (fd : FeatureVector R) (vehicle : String.string) :
  Prediction.predictLocal None vehicle = None /\
  exists p, Prediction.predictLocal (Some fd) vehicle = Some p /\
  5 <= Prediction.optimal_speed p <= 95 /\
  (5 < slope fd \/ SOCave292 fd < 20 -> Prediction.optimal_speed p <= 70) /\
  (2 < slope fd -> Prediction.optimal_speed p <= 85) /\
  (slope fd <= 2 -> 20 <= SOCave292 fd -> 110 < speed_kmh fd ->
   Prediction.optimal_speed p = 95).
Proof.
  split; [reflexivity|].
  unfold Prediction.predictLocal. cbv zeta.
  eexists; split; [reflexivity|]. cbn [Prediction.optimal_speed].
  match goal with
  | |- context [Prediction.math_round ?o] =>
    assert (Ho : 5 <= o <= 95 /\ (5 < slope fd \/ SOCave292 fd < 20 -> o <= 70) /\
                 (2 < slope fd -> o <= 85) /\
                 (slope fd <= 2 -> 20 <= SOCave292 fd -> 110 < speed_kmh fd -> o = 95))
      by (rcases; conj_lra);
    revert Ho; generalize o
  end.
  intros o (Hb & H70 & H85 & H95).
  split; [split; [apply round_ge | apply round_le]; lra|].
  split; [intros H; apply round_le; apply H70; exact H|].
  split; [intros H; apply round_le; apply H85; exact H|].
  intros H1 H2 H3. rewrite (H95 H1 H2 H3). apply math_round_IZR.
Qed.



(** X17: without a [resetSession] call, the auto-predict effect sets a
    new prediction at most once per 900 ms: the times at which it fires
    are at least 900 ms apart, the first at least 900 ms after the last
    prediction time of the starting state. *)
Theorem prediction_throttled (s : Prediction.PredictionState)
    (evs : list Prediction.PredictionEvent) :
  ~ In Prediction.ResetSession evs ->
  Prediction.spaced (Prediction.lastPredictionTime s) (Prediction.predictionTimes s evs).
Proof.
  revert s. induction evs as [|ev rest IH]; intros s Hn; [exact I|].
  assert (Hr : ~ In Prediction.ResetSession rest) by (intros H; apply Hn; right; exact H).
  destruct ev as [en fe v now|]; [|exfalso; apply Hn; left; reflexivity].
  cbn. destruct en; cbn; [|apply IH; exact Hr].
  destruct fe as [f|]; cbn; [|apply IH; exact Hr].
  destruct (Z.ltb_spec (now - Prediction.lastPredictionTime s) 900); cbn.
  - apply IH; exact Hr.
  - split; [lia|]. apply (IH (Prediction.mkPredictionState _ None now)). exact Hr.
Qed.

(** Witness of X17: three effect runs 500 ms apart from the initial state;
    only the first and the third fire. *)
Lemma prediction_throttled_witness :
  let fd : FeatureVector R :=
    mkFeatureVector 0 0 0 0 0 0 0 20 3 80 0 0 0 0 0 0 0 0 0 0 0 0 0 0
                    0 0 0 0 0 0 0 0 2 2 0 0 in
  let evs := [Prediction.EffectRun true (Some fd) Prediction.defaultVehicleId 1000;
              Prediction.EffectRun true (Some fd) Prediction.defaultVehicleId 1500;
              Prediction.EffectRun true (Some fd) Prediction.defaultVehicleId 2000] in
  ~ In Prediction.ResetSession evs /\
  Prediction.predictionTimes Prediction.initialPredictionState evs = [1000%Z; 2000%Z] /\
  Prediction.spaced 0 (Prediction.predictionTimes Prediction.initialPredictionState evs).
Proof.
  cbv zeta.
  assert (Hn : ~ In Prediction.ResetSession
                 [Prediction.EffectRun true (Some (mkFeatureVector 0 0 0 0 0 0 0 20 3 80 0 0 0 0
                    0 0 0 0 0 0 0 0 0 0 0 0 0 0 0 0 0 0 2 2 0 0 : FeatureVector R)) Prediction.defaultVehicleId 1000;
                  Prediction.EffectRun true (Some (mkFeatureVector 0 0 0 0 0 0 0 20 3 80 0 0 0 0
                    0 0 0 0 0 0 0 0 0 0 0 0 0 0 0 0 0 0 2 2 0 0)) Prediction.defaultVehicleId 1500;
                  Prediction.EffectRun true (Some (mkFeatureVector 0 0 0 0 0 0 0 20 3 80 0 0 0 0
                    0 0 0 0 0 0 0 0 0 0 0 0 0 0 0 0 0 0 2 2 0 0)) Prediction.defaultVehicleId 2000]).
  { intros H. repeat destruct H as [H|H]; try discriminate H; exact H. }
  split; [exact Hn|]. split; [reflexivity|].
  exact (prediction_throttled Prediction.initialPredictionState _ Hn).
Defined.

(** ** The trip statistics of the dashboard *)

Lemma div_nonneg (a c : R) : 0 <= a -> 0 < c -> 0 <= a / c.
Proof.
  intros Ha Hc. unfold Rdiv. apply Rmult_le_pos; [exact Ha|].
  left. apply Rinv_0_lt_compat. exact Hc.
Qed.

(** X19: the state of charge shown for the trip stays in [0, 100]: every
    update clamps it there, the effect keeps it there, and the initial
    trip state starts at 75. *)
Theorem trip_soc_in_range :
  (forall (powerKw speedKmh batteryCapacity : R) (prev : App.AppTripState),
     0 <= App.currentSOC (App.updateTripStats powerKw speedKmh batteryCapacity prev) <= 100) /\
  (forall (ts : App.AppTripState) pred feats (batteryCapacity : R),
     0 <= App.currentSOC ts <= 100 ->
     0 <= App.currentSOC (App.tripStatsEffect ts pred feats batteryCapacity) <= 100) /\
  App.currentSOC App.initialTripState = 75.
Proof.
  assert (Hu : forall (powerKw speedKmh batteryCapacity : R) (prev : App.AppTripState),
     0 <= App.currentSOC (App.updateTripStats powerKw speedKmh batteryCapacity prev) <= 100).
  { intros. unfold App.updateTripStats. cbv zeta. cbn [App.currentSOC].
    unfold Rmax, Rmin. destruct (Rle_dec _ _); destruct (Rle_dec _ _); lra. }
  split; [exact Hu|]. split; [|reflexivity].
  intros ts pred feats cap Hs. unfold App.tripStatsEffect.
  destruct (App.isActive ts); cbn [negb]; [|exact Hs].
  destruct feats; [apply Hu | exact Hs].
Qed.

(** X20: an update of the trip statistics never decreases the energy
    used; it does not decrease the distance at a non-negative speed; with
    a positive battery capacity and a state of charge in [0, 100], a
    non-negative power does not raise the state of charge, a non-positive
    one (regeneration) does not lower it, and a zero power leaves both the
    state of charge and the energy as they are. *)
Theorem trip_update_monotone (powerKw speedKmh batteryCapacity : R)
    (prev : App.AppTripState) :
  let next := App.updateTripStats powerKw speedKmh batteryCapacity prev in
  App.energyUsed prev <= App.energyUsed next /\
  (0 <= speedKmh -> App.distance prev <= App.distance next) /\
  (0 < batteryCapacity -> 0 <= App.currentSOC prev <= 100 -> 0 <= powerKw ->
   App.currentSOC next <= App.currentSOC prev) /\
  (0 < batteryCapacity -> 0 <= App.currentSOC prev <= 100 -> powerKw <= 0 ->
   App.currentSOC prev <= App.currentSOC next) /\
  (0 < batteryCapacity -> 0 <= App.currentSOC prev <= 100 -> powerKw = 0 ->
   App.currentSOC next = App.currentSOC prev /\ App.energyUsed next = App.energyUsed prev).
Proof.
  cbv zeta. unfold App.updateTripStats. cbv zeta.
  cbn [App.energyUsed App.distance App.currentSOC].
  set (ed := if Rlt_dec 0 powerKw then powerKw / 3600 else 0).
  set (rd := if Rlt_dec powerKw 0 then Rabs powerKw / 3600 else 0).
  assert (Hed : 0 <= ed /\ (powerKw <= 0 -> ed = 0)).
  { subst ed. destruct (Rlt_dec 0 powerKw); split; intros; lra. }
  assert (Hrd : 0 <= rd /\ (0 <= powerKw -> rd = 0)).
  { subst rd. destruct (Rlt_dec powerKw 0); [|split; intros; lra].
    pose proof (Rabs_pos powerKw). split; intros; lra. }
  destruct Hed as [Hed0 Hed1]. destruct Hrd as [Hrd0 Hrd1].
  split; [lra|]. split; [intros; lra|].
  split; [|split].
  - intros Hc Hs Hp. rewrite (Hrd1 Hp), Rdiv_0_l.
    pose proof (div_nonneg ed batteryCapacity Hed0 Hc).
    unfold Rmax, Rmin. destruct (Rle_dec _ _); destruct (Rle_dec _ _); lra.
  - intros Hc Hs Hp. rewrite (Hed1 Hp), Rdiv_0_l.
    pose proof (div_nonneg rd batteryCapacity Hrd0 Hc).
    unfold Rmax, Rmin. destruct (Rle_dec _ _); destruct (Rle_dec _ _); lra.
  - intros Hc Hs Hp.
    rewrite (Hed1 ltac:(lra)), (Hrd1 ltac:(lra)), !Rdiv_0_l.
    split; [|lra].
    unfold Rmax, Rmin. destruct (Rle_dec _ _); destruct (Rle_dec _ _); lra.
Qed.

(** X21: the trip-statistics effect does nothing while the trip is not
    active or there are no features; otherwise a missing prediction or a
    [NaN] power counts as a power of 0. *)
Theorem trip_effect_guards (ts : App.AppTripState) pred feats (batteryCapacity : R) :
  (App.isActive ts = false -> App.tripStatsEffect ts pred feats batteryCapacity = ts) /\
  (feats = None -> App.tripStatsEffect ts pred feats batteryCapacity = ts) /\
  (forall f, App.isActive ts = true -> feats = Some f ->
     (pred = None \/ exists p, pred = Some p /\ Prediction.battery_power_kw p = None) ->
     App.tripStatsEffect ts pred feats batteryCapacity =
       App.updateTripStats 0 (speed_kmh f) batteryCapacity ts).
Proof.
  unfold App.tripStatsEffect. split; [|split].
  - intros ->. reflexivity.
  - intros ->. destruct (App.isActive ts); reflexivity.
  - intros f -> -> [->|(p & -> & Hp)]; cbn; [reflexivity|]. rewrite Hp. reflexivity.
Qed.

(** ** Elevation gain and loss *)

(** X22: a call adds an elevation difference above 0.3 m to the
    cumulative gain and the magnitude of one below -0.3 m to the
    cumulative loss, and leaves both otherwise; so over any run the gain
    and the loss never decrease. *)
Theorem elevation_counters_threshold (st : State RealModel.Key R) ticks :
  (forall (st1 : State RealModel.Key R) sd api,
     let '(f, _, st') := RealModel.calculateFeatures st1 sd api in
     let t := tripStateRef st1 in
     let t' := tripStateRef st' in
     let diff := elevation_diff f in
     cumulElevationGain t' =
       (if Rlt_dec (3 / 10) diff then cumulElevationGain t + diff
        else cumulElevationGain t) /\
     cumulElevationLoss t' =
       (if Rlt_dec diff (- (3 / 10)) then cumulElevationLoss t + Rabs diff
        else cumulElevationLoss t)) /\
  (let t := tripStateRef st in
   let t' := tripStateRef (snd (RealModel.run st ticks)) in
   cumulElevationGain t <= cumulElevationGain t' /\
   cumulElevationLoss t <= cumulElevationLoss t').
Proof.
  split.
  - intros st1 sd api. pose proof (calculateFeatures_step st1 sd api) as Hs.
    destruct (RealModel.calculateFeatures st1 sd api) as [[f src] st'].
    cbv zeta in Hs |- *. destruct Hs as (_ & _ & _ & H1 & H2 & _). split; assumption.
  - set (t := tripStateRef st).
    destruct (run_preserves
      (fun st' => cumulElevationGain t <= cumulElevationGain (tripStateRef st') /\
                  cumulElevationLoss t <= cumulElevationLoss (tripStateRef st'))
      (fun _ => True) (fun _ => True)) with (ticks := ticks) (st := st)
      as [H _]; [| subst t; lra | apply Forall_forall; intros; exact I | exact H].
    intros st1 sd api Hp _. split; [|exact I].
    pose proof (calculateFeatures_step st1 sd api) as Hs.
    destruct (RealModel.calculateFeatures st1 sd api) as [[f src] st'].
    cbv zeta in Hs. cbn [snd]. destruct Hs as (_ & _ & _ & Hg & Hl & _).
    pose proof (Rabs_pos (elevation_diff f)).
    rewrite Hg, Hl.
    destruct (Rlt_dec _ _); destruct (Rlt_dec _ _); lra.
Qed.
